(** * Focus Timer: the timer engine state machine

    A shallow embedding of [core/models.py] and [core/timer_engine.py].
    The engine is a Qt object whose methods mutate one [TimerContext],
    read the wall clock, call the storage collaborator and emit signals.
    Each method is embedded as a computation in a state monad over a
    [World] that holds the engine's attributes together with the pieces
    of its environment the methods touch: the wall clock, the settings
    and sessions tables of the storage, and the log of emitted signals.

    Around the engine, [core/storage.py] is embedded over the three tables
    of its database, as lists of rows, and the slots of [ui/timer_page.py]
    and [ui/main_window.py] that call the engine or listen to it, with the
    keep-awake manager of [core/keep_awake.py], over the state of their
    widgets. *)

From Stdlib Require Import ZArith List Bool String Ascii DecimalString Lia.
From ExtLib Require Import Structures.Monad Structures.MonadState.
From ExtLib Require Import Data.Monads.StateMonad.
Import ListNotations.
Import MonadNotation.
Local Open Scope monad_scope.
Local Open Scope Z_scope.

(** ** core/models.py *)

Inductive TimerState : Type := IDLE | FOCUS | BREAK | PAUSED.

Definition TimerState_eqb (a b : TimerState) : bool :=
  match a, b with
  | IDLE, IDLE | FOCUS, FOCUS | BREAK, BREAK | PAUSED, PAUSED => true
  | _, _ => false
  end.

Inductive SessionStatus : Type := COMPLETED | INTERRUPTED.

(** [SessionStatus.X.value] *)
Definition value (s : SessionStatus) : string :=
  match s with
  | COMPLETED => "completed"
  | INTERRUPTED => "interrupted"
  end.

Record Session : Type := {
  id : option Z;
  group_id : Z;
  start_ts : Z;
  end_ts : Z;
  planned_seconds : Z;
  actual_seconds : Z;
  status : string;
  note : option string;
  created_at : Z;
  is_break : bool
}.

Record AppSettings : Type := {
  auto_start_break : bool;
  auto_start_focus : bool;
  keep_screen_awake : bool;
  sound_enabled : bool;
  notification_enabled : bool;
  log_breaks : bool
}.

(** [AppSettings()] *)
Definition default_settings : AppSettings :=
  {| auto_start_break := true; auto_start_focus := false;
     keep_screen_awake := true; sound_enabled := true;
     notification_enabled := true; log_breaks := false |}.

Record TimerContext : Type := {
  state : TimerState;
  remaining_seconds : Z;
  total_seconds : Z;
  current_group_id : option Z;
  focus_minutes : Z;
  break_minutes : Z;
  session_start_ts : Z;
  pause_start_ts : Z;
  total_paused_seconds : Z
}.

(** [TimerContext()] *)
Definition default_context : TimerContext :=
  {| state := IDLE; remaining_seconds := 0; total_seconds := 0;
     current_group_id := None; focus_minutes := 25; break_minutes := 5;
     session_start_ts := 0; pause_start_ts := 0; total_paused_seconds := 0 |}.

(** ** The engine and its environment *)

(** What a call of the engine does to the outside, in the order it does
    it: the three Qt signals (a [tick] carries the context as it is when
    the signal is emitted) and the inserts into the sessions table (the
    row and the id SQLite gave it). *)
Inductive Effect : Type :=
| tick (c : TimerContext)
| phase_changed (old_state new_state : TimerState)
| session_completed (s : Session)
| create_session_row (s : Session) (rowid : Z).

Record World : Type := {
  context : TimerContext;                   (* self._context *)
  state_before_pause : option TimerState;   (* self._state_before_pause *)
  qt_timer_active : bool;                   (* self._qt_timer.isActive() *)
  current_session_start : Z;                (* self._current_session_start *)
  current_planned_seconds : Z;              (* self._current_planned_seconds *)
  clock_reads : nat;                        (* calls of time.time() so far *)
  settings : AppSettings;                   (* the storage's settings table *)
  lastrowid : Z;                            (* AUTOINCREMENT counter of sessions *)
  trace : list Effect                       (* inserts and signals, oldest first *)
}.

Definition with_context (c : TimerContext) (w : World) : World :=
  {| context := c; state_before_pause := state_before_pause w;
     qt_timer_active := qt_timer_active w;
     current_session_start := current_session_start w;
     current_planned_seconds := current_planned_seconds w;
     clock_reads := clock_reads w; settings := settings w;
     lastrowid := lastrowid w; trace := trace w |}.

Definition with_state_before_pause (s : option TimerState) (w : World) : World :=
  {| context := context w; state_before_pause := s;
     qt_timer_active := qt_timer_active w;
     current_session_start := current_session_start w;
     current_planned_seconds := current_planned_seconds w;
     clock_reads := clock_reads w; settings := settings w;
     lastrowid := lastrowid w; trace := trace w |}.

Definition with_qt_timer_active (b : bool) (w : World) : World :=
  {| context := context w; state_before_pause := state_before_pause w;
     qt_timer_active := b;
     current_session_start := current_session_start w;
     current_planned_seconds := current_planned_seconds w;
     clock_reads := clock_reads w; settings := settings w;
     lastrowid := lastrowid w; trace := trace w |}.

Definition with_tracking (start planned : Z) (w : World) : World :=
  {| context := context w; state_before_pause := state_before_pause w;
     qt_timer_active := qt_timer_active w;
     current_session_start := start;
     current_planned_seconds := planned;
     clock_reads := clock_reads w; settings := settings w;
     lastrowid := lastrowid w; trace := trace w |}.

Definition with_clock_reads (n : nat) (w : World) : World :=
  {| context := context w; state_before_pause := state_before_pause w;
     qt_timer_active := qt_timer_active w;
     current_session_start := current_session_start w;
     current_planned_seconds := current_planned_seconds w;
     clock_reads := n; settings := settings w;
     lastrowid := lastrowid w; trace := trace w |}.

Definition with_settings (s : AppSettings) (w : World) : World :=
  {| context := context w; state_before_pause := state_before_pause w;
     qt_timer_active := qt_timer_active w;
     current_session_start := current_session_start w;
     current_planned_seconds := current_planned_seconds w;
     clock_reads := clock_reads w; settings := s;
     lastrowid := lastrowid w; trace := trace w |}.

Definition with_lastrowid (n : Z) (w : World) : World :=
  {| context := context w; state_before_pause := state_before_pause w;
     qt_timer_active := qt_timer_active w;
     current_session_start := current_session_start w;
     current_planned_seconds := current_planned_seconds w;
     clock_reads := clock_reads w; settings := settings w;
     lastrowid := n; trace := trace w |}.

Definition with_trace (t : list Effect) (w : World) : World :=
  {| context := context w; state_before_pause := state_before_pause w;
     qt_timer_active := qt_timer_active w;
     current_session_start := current_session_start w;
     current_planned_seconds := current_planned_seconds w;
     clock_reads := clock_reads w; settings := settings w;
     lastrowid := lastrowid w; trace := t |}.

(** [TimerEngine(storage)] on a fresh database. *)
Definition init_world : World :=
  {| context := default_context; state_before_pause := None;
     qt_timer_active := false;
     current_session_start := 0; current_planned_seconds := 0;
     clock_reads := 0%nat; settings := default_settings;
     lastrowid := 0; trace := [] |}.

(** Engine methods run to completion, one after the other, over the world. *)
Definition Eng : Type -> Type := StateMonad.state World.

Definition emit (e : Effect) : Eng unit :=
  w <- get ;; put (with_trace (trace w ++ [e]) w).

Definition get_context : Eng TimerContext :=
  w <- get ;; ret (context w).

Definition set_context (c : TimerContext) : Eng unit :=
  w <- get ;; put (with_context c w).

(** [self._qt_timer.start()] and [self._qt_timer.stop()] *)
Definition qt_timer_start : Eng unit :=
  w <- get ;; put (with_qt_timer_active true w).

Definition qt_timer_stop : Eng unit :=
  w <- get ;; put (with_qt_timer_active false w).

(** [self.storage.get_settings()] *)
Definition get_settings : Eng AppSettings :=
  w <- get ;; ret (settings w).

(** [self.storage.create_session(session)]: the insert, answering
    [cursor.lastrowid]. *)
Definition create_session (s : Session) : Eng Z :=
  w <- get ;;
  let rowid := lastrowid w + 1 in
  put (with_trace (trace w ++ [create_session_row s rowid])
         (with_lastrowid rowid w)) ;;
  ret rowid.

(** The properties [is_running], [is_focus], [is_break], [is_paused] and
    [is_idle].  The property [is_break] of the engine is [is_break_] here:
    [is_break] is the field of [Session]. *)
Definition running (c : TimerContext) : bool :=
  match state c with FOCUS | BREAK => true | _ => false end.

Definition is_running : Eng bool := c <- get_context ;; ret (running c).
Definition is_focus : Eng bool :=
  c <- get_context ;; ret (TimerState_eqb (state c) FOCUS).
Definition is_break_ : Eng bool :=
  c <- get_context ;; ret (TimerState_eqb (state c) BREAK).
Definition is_paused : Eng bool :=
  c <- get_context ;; ret (TimerState_eqb (state c) PAUSED).
Definition is_idle : Eng bool :=
  c <- get_context ;; ret (TimerState_eqb (state c) IDLE).

(** [x or 0] on an [Optional[int]] *)
Definition or_zero (g : option Z) : Z :=
  match g with
  | None => 0
  | Some n => n
  end.

(** [session.id = session_id] *)
Definition with_id (i : option Z) (s : Session) : Session :=
  {| id := i; group_id := group_id s; start_ts := start_ts s;
     end_ts := end_ts s; planned_seconds := planned_seconds s;
     actual_seconds := actual_seconds s; status := status s;
     note := note s; created_at := created_at s; is_break := is_break s |}.

Section Engine.

(** The wall clock: [clk i] is what the [i]-th call of [int(time.time())]
    answers, counted from the creation of the engine. *)
Variable clk : nat -> Z.

Definition time_time : Eng Z :=
  w <- get ;;
  put (with_clock_reads (S (clock_reads w)) w) ;;
  ret (clk (clock_reads w)).

(** ** core/timer_engine.py *)

Definition _save_session (completed is_break : bool) : Eng unit :=
  now <- time_time ;;
  w <- get ;;
  let c := context w in
  let actual_seconds :=
    if 0 <? pause_start_ts c
    then pause_start_ts c - current_session_start w - total_paused_seconds c
    else now - current_session_start w - total_paused_seconds c in
  let actual_seconds :=
    Z.max 0 (Z.min actual_seconds (current_planned_seconds w)) in
  created <- time_time ;;
  let session :=
    {| id := None;
       group_id := or_zero (current_group_id c);
       start_ts := current_session_start w;
       end_ts := now;
       planned_seconds := current_planned_seconds w;
       actual_seconds := actual_seconds;
       status := if completed then value COMPLETED else value INTERRUPTED;
       note := None;
       created_at := created;
       is_break := is_break |} in
  session_id <- create_session session ;;
  emit (session_completed (with_id (Some session_id) session)).

Definition _reset_to_idle : Eng unit :=
  c <- get_context ;;
  set_context
    {| state := IDLE; remaining_seconds := 0; total_seconds := 0;
       current_group_id := current_group_id c;
       focus_minutes := focus_minutes c; break_minutes := break_minutes c;
       session_start_ts := 0; pause_start_ts := 0;
       total_paused_seconds := 0 |} ;;
  w <- get ;;
  put (with_tracking 0 0 (with_state_before_pause None w)).

Definition _stop_and_save (interrupted : bool) : Eng unit :=
  qt_timer_stop ;;
  w <- get ;;
  let st := state (context w) in
  let was_focus :=
    TimerState_eqb st FOCUS
    || (TimerState_eqb st PAUSED
        && match state_before_pause w with
           | Some p => TimerState_eqb p FOCUS
           | None => false
           end) in
  let was_break :=
    TimerState_eqb st BREAK
    || (TimerState_eqb st PAUSED
        && match state_before_pause w with
           | Some p => TimerState_eqb p BREAK
           | None => false
           end) in
  let old_state := st in
  (if was_focus then _save_session (negb interrupted) false
   else if was_break then
     settings <- get_settings ;;
     if log_breaks settings then _save_session (negb interrupted) true
     else ret tt
   else ret tt) ;;
  _reset_to_idle ;;
  emit (phase_changed old_state IDLE) ;;
  c <- get_context ;;
  emit (tick c).

Definition start_focus (focus_minutes break_minutes : Z)
    (group_id : option Z) : Eng unit :=
  idle <- is_idle ;;
  (if negb idle then _stop_and_save true else ret tt) ;;
  c <- get_context ;;
  let old_state := state c in
  now <- time_time ;;
  let c' :=
    {| state := FOCUS;
       remaining_seconds := focus_minutes * 60;
       total_seconds := focus_minutes * 60;
       current_group_id := group_id;
       focus_minutes := focus_minutes;
       break_minutes := break_minutes;
       session_start_ts := now;
       pause_start_ts := pause_start_ts c;
       total_paused_seconds := 0 |} in
  set_context c' ;;
  w <- get ;;
  put (with_tracking (session_start_ts c') (total_seconds c') w) ;;
  qt_timer_start ;;
  emit (phase_changed old_state FOCUS) ;;
  emit (tick c').

Definition start_break : Eng unit :=
  c <- get_context ;;
  let old_state := state c in
  (if TimerState_eqb old_state FOCUS then _save_session true false
   else ret tt) ;;
  c <- get_context ;;
  now <- time_time ;;
  let c' :=
    {| state := BREAK;
       remaining_seconds := break_minutes c * 60;
       total_seconds := break_minutes c * 60;
       current_group_id := current_group_id c;
       focus_minutes := focus_minutes c;
       break_minutes := break_minutes c;
       session_start_ts := now;
       pause_start_ts := pause_start_ts c;
       total_paused_seconds := 0 |} in
  set_context c' ;;
  w <- get ;;
  put (with_tracking (session_start_ts c') (total_seconds c') w) ;;
  w <- get ;;
  (if negb (qt_timer_active w) then qt_timer_start else ret tt) ;;
  emit (phase_changed old_state BREAK) ;;
  emit (tick c').

Definition pause : Eng unit :=
  r <- is_running ;;
  if negb r then ret tt
  else
    c <- get_context ;;
    let old_state := state c in
    w <- get ;;
    put (with_state_before_pause (Some old_state) w) ;;
    now <- time_time ;;
    let c' :=
      {| state := PAUSED;
         remaining_seconds := remaining_seconds c;
         total_seconds := total_seconds c;
         current_group_id := current_group_id c;
         focus_minutes := focus_minutes c;
         break_minutes := break_minutes c;
         session_start_ts := session_start_ts c;
         pause_start_ts := now;
         total_paused_seconds := total_paused_seconds c |} in
    set_context c' ;;
    qt_timer_stop ;;
    emit (phase_changed old_state PAUSED) ;;
    emit (tick c').

Definition resume : Eng unit :=
  p <- is_paused ;;
  w <- get ;;
  match negb p, state_before_pause w with
  | true, _ | _, None => ret tt
  | false, Some before =>
    c <- get_context ;;
    now <- time_time ;;
    let pause_duration := now - pause_start_ts c in
    let old_state := PAUSED in
    let c' :=
      {| state := before;
         remaining_seconds := remaining_seconds c;
         total_seconds := total_seconds c;
         current_group_id := current_group_id c;
         focus_minutes := focus_minutes c;
         break_minutes := break_minutes c;
         session_start_ts := session_start_ts c;
         pause_start_ts := 0;
         total_paused_seconds := total_paused_seconds c + pause_duration |} in
    set_context c' ;;
    w <- get ;;
    put (with_state_before_pause None w) ;;
    qt_timer_start ;;
    emit (phase_changed old_state (state c')) ;;
    emit (tick c')
  end.

Definition stop : Eng unit :=
  idle <- is_idle ;;
  if idle then ret tt else _stop_and_save true.

Definition skip_break : Eng unit :=
  b <- is_break_ ;;
  if negb b then ret tt
  else
    c <- get_context ;;
    let old_state := state c in
    qt_timer_stop ;;
    settings <- get_settings ;;
    (if log_breaks settings then _save_session false true else ret tt) ;;
    _reset_to_idle ;;
    emit (phase_changed old_state IDLE) ;;
    c <- get_context ;;
    emit (tick c).

Definition _on_phase_complete : Eng unit :=
  qt_timer_stop ;;
  f <- is_focus ;;
  if f then
    _save_session true false ;;
    settings <- get_settings ;;
    if auto_start_break settings then start_break
    else
      c <- get_context ;;
      let old_state := state c in
      _reset_to_idle ;;
      emit (phase_changed old_state IDLE)
  else
    b <- is_break_ ;;
    if b then
      settings <- get_settings ;;
      (if log_breaks settings then _save_session true true else ret tt) ;;
      if auto_start_focus settings then
        c <- get_context ;;
        start_focus (focus_minutes c) (break_minutes c) (current_group_id c)
      else
        c <- get_context ;;
        let old_state := state c in
        _reset_to_idle ;;
        emit (phase_changed old_state IDLE)
    else ret tt.

(** Lines 243-245: the remaining time from the timestamps. *)
Definition remaining_at (c : TimerContext) (now : Z) : Z :=
  let elapsed := now - session_start_ts c - total_paused_seconds c in
  Z.max 0 (total_seconds c - elapsed).

Definition _on_tick : Eng unit :=
  r <- is_running ;;
  if negb r then ret tt
  else
    now <- time_time ;;
    c <- get_context ;;
    let c' :=
      {| state := state c;
         remaining_seconds := remaining_at c now;
         total_seconds := total_seconds c;
         current_group_id := current_group_id c;
         focus_minutes := focus_minutes c;
         break_minutes := break_minutes c;
         session_start_ts := session_start_ts c;
         pause_start_ts := pause_start_ts c;
         total_paused_seconds := total_paused_seconds c |} in
    set_context c' ;;
    emit (tick c') ;;
    if remaining_seconds c' <=? 0 then _on_phase_complete else ret tt.

Definition cleanup : Eng unit :=
  r <- is_running ;;
  p <- is_paused ;;
  (if r || p then _stop_and_save true else ret tt) ;;
  qt_timer_stop.

(** ** Driving the engine *)

(** What reaches the engine between its creation and the end of the
    process: the commands of the presentation layer, the wake-ups of the
    scheduler, and the settings page saving the settings it shares with
    the engine through the storage. *)
Inductive Command : Type :=
| CStartFocus (focus_minutes break_minutes : Z) (group_id : option Z)
| CStartBreak
| CPause
| CResume
| CStop
| CSkipBreak
| CCleanup
| CTick
| CSaveSettings (s : AppSettings).

Definition perform (cmd : Command) : Eng unit :=
  match cmd with
  | CStartFocus f b g => start_focus f b g
  | CStartBreak => start_break
  | CPause => pause
  | CResume => resume
  | CStop => stop
  | CSkipBreak => skip_break
  | CCleanup => cleanup
  | CTick => _on_tick
  | CSaveSettings s => w <- get ;; put (with_settings s w)
  end.

Definition exec (cmd : Command) (w : World) : World :=
  execState (perform cmd) w.

Definition run (cmds : list Command) (w : World) : World :=
  fold_left (fun w cmd => exec cmd w) cmds w.

End Engine.

(** ** Vocabulary of the properties *)

Arguments value : simpl never.

(** The records handed to the storage, as they appear in a log. *)
Fixpoint persisted (t : list Effect) : list Session :=
  match t with
  | [] => []
  | create_session_row s rowid :: t' => with_id (Some rowid) s :: persisted t'
  | _ :: t' => persisted t'
  end.

Definition is_tick (e : Effect) : bool :=
  match e with
  | tick _ => true
  | _ => false
  end.



(** What a call added to the log: the log after it, without the log before. *)
Definition new_effects (before after : World) : list Effect :=
  skipn (List.length (trace before)) (trace after).

Definition is_start_focus (cmd : Command) : bool :=
  match cmd with
  | CStartFocus _ _ _ => true
  | _ => false
  end.

(** The presentation layer takes the minutes from spin boxes that start
    at 1; the data model of the specification asks for the same. *)
Definition valid_command (cmd : Command) : Prop :=
  match cmd with
  | CStartFocus f b _ => 1 <= f /\ 1 <= b
  | _ => True
  end.

(** The session in progress, also when it is paused. *)
Definition was_focus (w : World) : Prop :=
  state (context w) = FOCUS \/
  (state (context w) = PAUSED /\ state_before_pause w = Some FOCUS).

Definition was_break (w : World) : Prop :=
  state (context w) = BREAK \/
  (state (context w) = PAUSED /\ state_before_pause w = Some BREAK).

Section Clock.

Variable clk : nat -> Z.

Definition clock_monotone : Prop :=
  forall i j : nat, (i <= j)%nat -> clk i <= clk j.

(** The answer of the latest call of [time.time()]. *)
Definition last_now (w : World) : Z := clk (pred (clock_reads w)).

(** The time not spent in pauses never runs ahead of the clock. *)
Definition timing_ok (w : World) : Prop :=
  let c := context w in
  match state c with
  | IDLE => True
  | FOCUS | BREAK =>
    forall i : nat, (clock_reads w <= i)%nat ->
      session_start_ts c + total_paused_seconds c <= clk i
  | PAUSED =>
    (state_before_pause w = Some FOCUS \/ state_before_pause w = Some BREAK) /\
    session_start_ts c + total_paused_seconds c <= pause_start_ts c /\
    forall i : nat, (clock_reads w <= i)%nat -> pause_start_ts c <= clk i
  end.

Record Inv (w : World) : Prop := {
  inv_minutes :
    0 <= focus_minutes (context w) /\ 0 <= break_minutes (context w);
  inv_remaining :
    0 <= remaining_seconds (context w) <= total_seconds (context w);
  inv_tracking :
    current_session_start w = session_start_ts (context w) /\
    current_planned_seconds w = total_seconds (context w);
  inv_timing : timing_ok w
}.

End Clock.

(** ** core/models.py, the rest *)

Module Group.

Record t : Type := {
  id : option Z;
  name : string;
  default_focus_minutes : Z;
  default_break_minutes : Z;
  color : string;
  created_at : Z
}.

(** [Group.__post_init__]: minutes below 1 become 1. *)
Definition __post_init__ (g : t) : t :=
  let g :=
    if default_focus_minutes g <? 1
    then {| id := id g; name := name g; default_focus_minutes := 1;
            default_break_minutes := default_break_minutes g;
            color := color g; created_at := created_at g |}
    else g in
  if default_break_minutes g <? 1
  then {| id := id g; name := name g;
          default_focus_minutes := default_focus_minutes g;
          default_break_minutes := 1;
          color := color g; created_at := created_at g |}
  else g.

(** [Group(id=..., name=..., ...)] with every field given: the dataclass
    stores the fields and runs [__post_init__]. *)
Definition make (id : option Z) (name : string)
    (default_focus_minutes default_break_minutes : Z) (color : string)
    (created_at : Z) : t :=
  __post_init__
    {| id := id; name := name;
       default_focus_minutes := default_focus_minutes;
       default_break_minutes := default_break_minutes;
       color := color; created_at := created_at |}.

End Group.

Module TimerPreset.

Record t : Type := {
  name : string;
  focus_minutes : Z;
  break_minutes : Z
}.

End TimerPreset.

Definition DEFAULT_PRESETS : list TimerPreset.t :=
  [ {| TimerPreset.name := "Classic Pomodoro";
       TimerPreset.focus_minutes := 25; TimerPreset.break_minutes := 5 |};
    {| TimerPreset.name := "Extended Focus";
       TimerPreset.focus_minutes := 50; TimerPreset.break_minutes := 10 |};
    {| TimerPreset.name := "Long Session";
       TimerPreset.focus_minutes := 60; TimerPreset.break_minutes := 15 |};
    {| TimerPreset.name := "Deep Work";
       TimerPreset.focus_minutes := 90; TimerPreset.break_minutes := 20 |} ].

(** [f"{n:02d}"] on an integer: its decimal digits, with a sign if it is
    negative, filled with a zero on the left up to two characters. *)
Definition format_02d (n : Z) : string :=
  let digits := DecimalString.NilZero.string_of_int (Z.to_int n) in
  if (String.length digits <? 2)%nat then String "0" digits else digits.

(** [TimerContext.format_remaining]; [//] and [%] of Python round down, as
    [Z.div] and [Z.modulo] do. *)
Definition format_remaining (c : TimerContext) : string :=
  let minutes := remaining_seconds c / 60 in
  let seconds := remaining_seconds c mod 60 in
  (format_02d minutes ++ ":" ++ format_02d seconds)%string.

(** ** ui/timer_page.py and ui/main_window.py: the callers of the engine *)

(** [list[i]] of Python: a negative index counts from the end, and an index
    outside the list raises [IndexError] ([None]). *)
Definition py_index {A : Type} (l : list A) (i : Z) : option A :=
  let n := Z.of_nat (List.length l) in
  if i <? 0 then
    if i + n <? 0 then None else nth_error l (Z.to_nat (i + n))
  else nth_error l (Z.to_nat i).

(** [TimerPage._get_current_timing], from the state of the widgets it
    reads: [self._use_custom], the values of the two spin boxes and the
    current index of the preset combo box. *)
Definition _get_current_timing (use_custom : bool)
    (focus_spin break_spin preset_index : Z) : option (Z * Z) :=
  if use_custom then Some (focus_spin, break_spin)
  else if preset_index <? Z.of_nat (List.length DEFAULT_PRESETS) then
    match py_index DEFAULT_PRESETS preset_index with
    | Some preset =>
      Some (TimerPreset.focus_minutes preset, TimerPreset.break_minutes preset)
    | None => None
    end
  else Some (focus_spin, break_spin).

(** The spin boxes are set up with [setRange(1, 180)] and [setRange(1, 60)]. *)
Definition focus_spin_range (v : Z) : Prop := 1 <= v <= 180.
Definition break_spin_range (v : Z) : Prop := 1 <= v <= 60.


(** ** core/storage.py *)

(** The three tables, as lists of rows in the order of their insertion.
    SQLite gives an AUTOINCREMENT table ids above every id it has given
    before; [groups_seq] and [sessions_seq] are the two counters it keeps
    for that in [sqlite_sequence].  The code never switches foreign keys
    on, so the reference from sessions to groups is not enforced. *)

Module GroupRow.

Record t : Type := {
  id : Z;
  name : string;
  default_focus : Z;
  default_break : Z;
  color : string;
  created_at : Z
}.

End GroupRow.

Module SessionRow.

Record t : Type := {
  id : Z;
  group_id : Z;
  start_ts : Z;
  end_ts : Z;
  planned_sec : Z;
  actual_sec : Z;
  status : string;
  note : option string;
  is_break : Z;
  created_at : Z
}.

End SessionRow.

Module Database.

Record t : Type := {
  groups : list GroupRow.t;
  groups_seq : Z;
  sessions : list SessionRow.t;
  sessions_seq : Z;
  settings : list (string * string)
}.

(** A database file that does not exist yet. *)
Definition empty : t :=
  {| groups := []; groups_seq := 0; sessions := []; sessions_seq := 0;
     settings := [] |}.

End Database.

(** What an attribute of a settings object holds at run time: the
    dataclass declares booleans, [get_settings] also stores text. *)
Inductive PyValue : Type :=
| PyBool (b : bool)
| PyStr (s : string).

(** [str(v)] *)
Definition py_str (v : PyValue) : string :=
  match v with
  | PyBool true => "True"
  | PyBool false => "False"
  | PyStr s => s
  end.

(** The truth value of [v] in an [if]. *)
Definition py_truth (v : PyValue) : bool :=
  match v with
  | PyBool b => b
  | PyStr s => negb (String.eqb s "")
  end.

(** [str.lower] decides the same membership in [('true', 'false')] as the
    lowering of the letters A to Z does: no other character lowers to one of
    [t r u e f a l s]. *)
Definition lower_ascii (a : ascii) : ascii :=
  let n := nat_of_ascii a in
  if (65 <=? n)%nat && (n <=? 90)%nat then ascii_of_nat (n + 32) else a.

Fixpoint lower (s : string) : string :=
  match s with
  | EmptyString => EmptyString
  | String a s' => String (lower_ascii a) (lower s')
  end.

Module Attrs.

(** An [AppSettings] object with what its attributes hold. *)
Record t : Type := {
  auto_start_break : PyValue;
  auto_start_focus : PyValue;
  keep_screen_awake : PyValue;
  sound_enabled : PyValue;
  notification_enabled : PyValue;
  log_breaks : PyValue
}.

End Attrs.

(** An [AppSettings] object whose attributes are the booleans declared,
    and the truth values the [if]s of the engine see in an object. *)
Definition of_flags (s : AppSettings) : Attrs.t :=
  match s with
  | Build_AppSettings a b c d e f =>
    Attrs.Build_t (PyBool a) (PyBool b) (PyBool c) (PyBool d) (PyBool e)
      (PyBool f)
  end.

Definition flags (o : Attrs.t) : AppSettings :=
  match o with
  | Attrs.Build_t a b c d e f =>
    Build_AppSettings (py_truth a) (py_truth b) (py_truth c) (py_truth d)
      (py_truth e) (py_truth f)
  end.

(** [getattr(settings, key)] and [setattr(settings, key, v)] on the six
    fields.  The other attributes of the object are those of every
    dataclass instance, all of them double-underscore names ([dunder]). *)
Definition getattr (o : Attrs.t) (key : string) : option PyValue :=
  if String.eqb key "auto_start_break" then Some (Attrs.auto_start_break o)
  else if String.eqb key "auto_start_focus" then Some (Attrs.auto_start_focus o)
  else if String.eqb key "keep_screen_awake" then Some (Attrs.keep_screen_awake o)
  else if String.eqb key "sound_enabled" then Some (Attrs.sound_enabled o)
  else if String.eqb key "notification_enabled"
  then Some (Attrs.notification_enabled o)
  else if String.eqb key "log_breaks" then Some (Attrs.log_breaks o)
  else None.

Definition setattr (o : Attrs.t) (key : string) (v : PyValue) : Attrs.t :=
  match o with
  | Attrs.Build_t a b c d e f =>
    if String.eqb key "auto_start_break" then Attrs.Build_t v b c d e f
    else if String.eqb key "auto_start_focus" then Attrs.Build_t a v c d e f
    else if String.eqb key "keep_screen_awake" then Attrs.Build_t a b v d e f
    else if String.eqb key "sound_enabled" then Attrs.Build_t a b c v e f
    else if String.eqb key "notification_enabled"
    then Attrs.Build_t a b c d v f
    else if String.eqb key "log_breaks" then Attrs.Build_t a b c d e v
    else o
  end.

Definition hasattr (o : Attrs.t) (key : string) : bool :=
  match getattr o key with
  | Some _ => true
  | None => false
  end.

Definition dunder (key : string) : bool := String.prefix "__" key.

(** What an operation of the storage answers: a value, or the
    [sqlite3.IntegrityError] of a violated UNIQUE constraint, after which
    [_get_connection] rolls the transaction back and raises again. *)
Inductive Outcome (A : Type) : Type :=
| Returned (a : A)
| IntegrityError.

Arguments Returned {A} a.
Arguments IntegrityError {A}.

Module Storage.

(** [Storage._init_database] at the time [now]: the tables are created if
    they are missing, and the four default groups are inserted if the
    groups table is empty. *)
Definition default_groups : list (string * Z * Z * string) :=
  [ ("Study", 25, 5, "#4CAF50"); ("Work", 50, 10, "#2196F3");
    ("Coding", 45, 10, "#9C27B0"); ("Reading", 30, 5, "#FF9800") ]%string.

Definition insert_group_row (name : string) (focus break_min : Z)
    (color : string) (created_at : Z) (db : Database.t) : Database.t :=
  let rowid := Database.groups_seq db + 1 in
  {| Database.groups :=
       Database.groups db
       ++ [ {| GroupRow.id := rowid; GroupRow.name := name;
               GroupRow.default_focus := focus;
               GroupRow.default_break := break_min;
               GroupRow.color := color;
               GroupRow.created_at := created_at |} ];
     Database.groups_seq := rowid;
     Database.sessions := Database.sessions db;
     Database.sessions_seq := Database.sessions_seq db;
     Database.settings := Database.settings db |}.

Definition _init_database (now : Z) (db : Database.t) : Database.t :=
  if (List.length (Database.groups db) =? 0)%nat then
    fold_left
      (fun db g =>
         match g with
         | (name, focus, break_min, color) =>
           insert_group_row name focus break_min color now db
         end)
      default_groups db
  else db.

Definition name_taken (name : string) (rows : list GroupRow.t) : bool :=
  existsb (fun r => String.eqb (GroupRow.name r) name) rows.

Definition create_group (group : Group.t) (db : Database.t)
    : Outcome Z * Database.t :=
  if name_taken (Group.name group) (Database.groups db)
  then (IntegrityError, db)
  else
    let db' :=
      insert_group_row (Group.name group) (Group.default_focus_minutes group)
        (Group.default_break_minutes group) (Group.color group)
        (Group.created_at group) db in
    (Returned (Database.groups_seq db'), db').

Definition _row_to_group (row : GroupRow.t) : Group.t :=
  Group.make (Some (GroupRow.id row)) (GroupRow.name row)
    (GroupRow.default_focus row) (GroupRow.default_break row)
    (GroupRow.color row) (GroupRow.created_at row).

Definition get_group (group_id : Z) (db : Database.t) : option Group.t :=
  match find (fun r => GroupRow.id r =? group_id) (Database.groups db) with
  | Some row => Some (_row_to_group row)
  | None => None
  end.

Definition with_groups (rows : list GroupRow.t) (db : Database.t)
    : Database.t :=
  {| Database.groups := rows;
     Database.groups_seq := Database.groups_seq db;
     Database.sessions := Database.sessions db;
     Database.sessions_seq := Database.sessions_seq db;
     Database.settings := Database.settings db |}.

Definition with_sessions (rows : list SessionRow.t) (db : Database.t)
    : Database.t :=
  {| Database.groups := Database.groups db;
     Database.groups_seq := Database.groups_seq db;
     Database.sessions := rows;
     Database.sessions_seq := Database.sessions_seq db;
     Database.settings := Database.settings db |}.

Definition with_settings_table (rows : list (string * string))
    (db : Database.t) : Database.t :=
  {| Database.groups := Database.groups db;
     Database.groups_seq := Database.groups_seq db;
     Database.sessions := Database.sessions db;
     Database.sessions_seq := Database.sessions_seq db;
     Database.settings := rows |}.

(** [update_group]: [False] at once for a group without id; the UPDATE
    touches the row of that id, fails if it would give it the name of
    another row, and [rowcount > 0] tells whether there was such a row. *)
Definition update_group (group : Group.t) (db : Database.t)
    : Outcome bool * Database.t :=
  match Group.id group with
  | None => (Returned false, db)
  | Some gid =>
    let hit r := GroupRow.id r =? gid in
    if existsb hit (Database.groups db) then
      if name_taken (Group.name group)
           (filter (fun r => negb (hit r)) (Database.groups db))
      then (IntegrityError, db)
      else
        (Returned true,
         with_groups
           (map (fun r =>
                   if hit r then
                     {| GroupRow.id := GroupRow.id r;
                        GroupRow.name := Group.name group;
                        GroupRow.default_focus :=
                          Group.default_focus_minutes group;
                        GroupRow.default_break :=
                          Group.default_break_minutes group;
                        GroupRow.color := Group.color group;
                        GroupRow.created_at := GroupRow.created_at r |}
                   else r)
              (Database.groups db)) db)
    else (Returned false, db)
  end.

(** [delete_group]: the sessions of the group go first, then the group;
    the answer is the [rowcount > 0] of the second DELETE. *)
Definition delete_group (group_id : Z) (db : Database.t)
    : bool * Database.t :=
  let db1 :=
    with_sessions
      (filter (fun s => negb (SessionRow.group_id s =? group_id))
         (Database.sessions db)) db in
  let hit r := GroupRow.id r =? group_id in
  (existsb hit (Database.groups db1),
   with_groups (filter (fun r => negb (hit r)) (Database.groups db1)) db1).

Definition create_session (session : Session) (db : Database.t)
    : Z * Database.t :=
  let rowid := Database.sessions_seq db + 1 in
  (rowid,
   {| Database.groups := Database.groups db;
      Database.groups_seq := Database.groups_seq db;
      Database.sessions :=
        Database.sessions db
        ++ [ {| SessionRow.id := rowid;
                SessionRow.group_id := group_id session;
                SessionRow.start_ts := start_ts session;
                SessionRow.end_ts := end_ts session;
                SessionRow.planned_sec := planned_seconds session;
                SessionRow.actual_sec := actual_seconds session;
                SessionRow.status := status session;
                SessionRow.note := note session;
                SessionRow.is_break := if is_break session then 1 else 0;
                SessionRow.created_at := created_at session |} ];
      Database.sessions_seq := rowid;
      Database.settings := Database.settings db |}).

Definition _row_to_session (row : SessionRow.t) : Session :=
  {| id := Some (SessionRow.id row);
     group_id := SessionRow.group_id row;
     start_ts := SessionRow.start_ts row;
     end_ts := SessionRow.end_ts row;
     planned_seconds := SessionRow.planned_sec row;
     actual_seconds := SessionRow.actual_sec row;
     status := SessionRow.status row;
     note := SessionRow.note row;
     created_at := SessionRow.created_at row;
     is_break := negb (SessionRow.is_break row =? 0) |}.

Definition get_session (session_id : Z) (db : Database.t) : option Session :=
  match find (fun r => SessionRow.id r =? session_id)
          (Database.sessions db) with
  | Some row => Some (_row_to_session row)
  | None => None
  end.

Definition update_session_note (session_id : Z) (note : string)
    (db : Database.t) : bool * Database.t :=
  let hit r := SessionRow.id r =? session_id in
  (existsb hit (Database.sessions db),
   with_sessions
     (map (fun r =>
             if hit r then
               {| SessionRow.id := SessionRow.id r;
                  SessionRow.group_id := SessionRow.group_id r;
                  SessionRow.start_ts := SessionRow.start_ts r;
                  SessionRow.end_ts := SessionRow.end_ts r;
                  SessionRow.planned_sec := SessionRow.planned_sec r;
                  SessionRow.actual_sec := SessionRow.actual_sec r;
                  SessionRow.status := SessionRow.status r;
                  SessionRow.note := Some note;
                  SessionRow.is_break := SessionRow.is_break r;
                  SessionRow.created_at := SessionRow.created_at r |}
             else r)
        (Database.sessions db)) db).

(** [_get_total_seconds_since], from [int(since.timestamp())]: the sum of
    [actual_sec] over the sessions that are no breaks, started at [since] or
    later and, if a group is given, belong to it; 0 if there is none. *)
Definition _get_total_seconds_since (since : Z) (group_id : option Z)
    (db : Database.t) : Z :=
  fold_left Z.add
    (map SessionRow.actual_sec
       (filter
          (fun s =>
             (since <=? SessionRow.start_ts s)
             && (SessionRow.is_break s =? 0)
             && match group_id with
                | Some g => SessionRow.group_id s =? g
                | None => true
                end)
          (Database.sessions db)))
    0.

(** [get_settings]: an object with the defaults, then every row of the
    settings table in turn. *)
Definition read_setting (o : Attrs.t) (row : string * string) : Attrs.t :=
  match row with
  | (key, value) =>
    if hasattr o key then
      if String.eqb (lower value) "true" || String.eqb (lower value) "false"
      then setattr o key (PyBool (String.eqb (lower value) "true"))
      else setattr o key (PyStr value)
    else o
  end.

Definition get_settings (db : Database.t) : Attrs.t :=
  fold_left read_setting (Database.settings db) (of_flags default_settings).

(** [INSERT OR REPLACE INTO settings]: the row of that key, if there is
    one, makes room for the new one. *)
Definition insert_or_replace (key value : string)
    (rows : list (string * string)) : list (string * string) :=
  filter (fun r => negb (String.eqb (fst r) key)) rows ++ [(key, value)].

Definition setting_keys : list string :=
  [ "auto_start_break"; "auto_start_focus"; "keep_screen_awake";
    "sound_enabled"; "notification_enabled"; "log_breaks" ]%string.

Definition save_settings (o : Attrs.t) (db : Database.t) : Database.t :=
  fold_left
    (fun db key =>
       match getattr o key with
       | Some v =>
         with_settings_table
           (insert_or_replace key (py_str v) (Database.settings db)) db
       | None => db
       end)
    setting_keys db.

End Storage.

(** [TimerPage._on_options_changed], from the state of its two check
    boxes. *)
Definition _on_options_changed (auto_break_checked auto_focus_checked : bool)
    (db : Database.t) : Database.t :=
  let o := Storage.get_settings db in
  let o := setattr o "auto_start_break" (PyBool auto_break_checked) in
  let o := setattr o "auto_start_focus" (PyBool auto_focus_checked) in
  Storage.save_settings o db.

(** What the operations of the storage keep: the ids of the rows are
    distinct and none is above the counter of its table. *)
Definition ids_fresh (db : Database.t) : Prop :=
  NoDup (map GroupRow.id (Database.groups db)) /\
  Forall (fun r => GroupRow.id r <= Database.groups_seq db)
    (Database.groups db) /\
  NoDup (map SessionRow.id (Database.sessions db)) /\
  Forall (fun r => SessionRow.id r <= Database.sessions_seq db)
    (Database.sessions db).

(** What [get_settings] leaves in an attribute: a boolean, or a text that
    is neither [true] nor [false] in any case. *)
Definition parsed (v : PyValue) : Prop :=
  match v with
  | PyBool _ => True
  | PyStr s =>
    String.eqb (lower s) "true" || String.eqb (lower s) "false" = false
  end.


Definition all_parsed (o : Attrs.t) : Prop :=
  parsed (Attrs.auto_start_break o) /\ parsed (Attrs.auto_start_focus o) /\
  parsed (Attrs.keep_screen_awake o) /\ parsed (Attrs.sound_enabled o) /\
  parsed (Attrs.notification_enabled o) /\ parsed (Attrs.log_breaks o).

(** Settings tables on which [hasattr] is the membership among the six
    fields: no key is a double-underscore name. *)
Definition plain_keys (db : Database.t) : Prop :=
  Forall (fun r => dunder (fst r) = false) (Database.settings db).

(** [session.note = note] *)
Definition with_note (n : option string) (s : Session) : Session :=
  {| id := id s; group_id := group_id s; start_ts := start_ts s;
     end_ts := end_ts s; planned_seconds := planned_seconds s;
     actual_seconds := actual_seconds s; status := status s;
     note := n; created_at := created_at s; is_break := is_break s |}.

(** The sessions table behind a log of the engine: every insert of the
    log done in turn by [Storage.create_session]; [None] if an insert of
    the log carries another id than the one the storage gives. *)
Definition store_step (acc : option Database.t) (e : Effect)
    : option Database.t :=
  match acc, e with
  | Some db, create_session_row s rowid =>
    match Storage.create_session s db with
    | (i, db') => if i =? rowid then Some db' else None
    end
  | _, _ => acc
  end.

Definition stored (t : list Effect) (db : Database.t) : option Database.t :=
  fold_left store_step t (Some db).

(** Logs whose inserts carry the ids 1, 2, ... in turn, each followed at
    once by its [session_completed]; the number is that of the inserts. *)
Inductive logged : Z -> list Effect -> Prop :=
| logged_nil : logged 0 []
| logged_tick (n : Z) (t : list Effect) (c : TimerContext) :
    logged n t -> logged n (t ++ [tick c])
| logged_phase (n : Z) (t : list Effect) (old_state new_state : TimerState) :
    logged n t -> logged n (t ++ [phase_changed old_state new_state])
| logged_save (n : Z) (t : list Effect) (s : Session) :
    logged n t ->
    logged (n + 1)
      ((t ++ [create_session_row s (n + 1)])
         ++ [session_completed (with_id (Some (n + 1)) s)]).


(** ** core/keep_awake.py and the listeners of ui/main_window.py *)

(** [KeepAwakeManager] over an implementation that keeps one flag
    [_active], set by [start] and cleared by [stop], as [LinuxKeepAwake] and
    [DummyKeepAwake] do; what those do to the screen is left out. *)
Module KeepAwakeManager.

Record t : Type := {
  _enabled : bool;
  _active : bool          (* self._impl._active *)
}.

(** [KeepAwakeManager()] *)
Definition make : t := {| _enabled := true; _active := false |}.

Definition is_active (k : t) : bool := _active k.

Definition stop (k : t) : t := {| _enabled := _enabled k; _active := false |}.

Definition start (k : t) : t :=
  if _enabled k then {| _enabled := _enabled k; _active := true |} else k.

(** The setter of the property [enabled]. *)
Definition set_enabled (value : bool) (k : t) : t :=
  let k := {| _enabled := value; _active := _active k |} in
  if negb value && is_active k then stop k else k.

Definition cleanup (k : t) : t := stop k.

End KeepAwakeManager.

(** The calls of the notification manager. *)
Inductive Notice : Type :=
| notify_focus_start
| notify_focus_complete
| notify_break_start
| notify_break_complete.

(** What [MainWindow._on_phase_changed] works on: the keep-awake manager,
    the notifications asked for so far, and the three actions of the tray
    menu. *)
Record MainWindow : Type := {
  keep_awake : KeepAwakeManager.t;
  notices : list Notice;
  tray_start_enabled : bool;
  tray_pause_enabled : bool;
  tray_pause_text : string;
  tray_stop_enabled : bool
}.

(** The window as [__init__] leaves it, the keep-awake setting applied by
    the settings page: [QAction]s are enabled unless disabled. *)
Definition main_window (awake_setting : bool) : MainWindow :=
  {| keep_awake :=
       KeepAwakeManager.set_enabled awake_setting KeepAwakeManager.make;
     notices := [];
     tray_start_enabled := true;
     tray_pause_enabled := false;
     tray_pause_text := "Pause";
     tray_stop_enabled := false |}.

Definition with_keep_awake (k : KeepAwakeManager.t) (m : MainWindow)
    : MainWindow :=
  {| keep_awake := k; notices := notices m;
     tray_start_enabled := tray_start_enabled m;
     tray_pause_enabled := tray_pause_enabled m;
     tray_pause_text := tray_pause_text m;
     tray_stop_enabled := tray_stop_enabled m |}.

Definition notify (n : Notice) (m : MainWindow) : MainWindow :=
  {| keep_awake := keep_awake m; notices := notices m ++ [n];
     tray_start_enabled := tray_start_enabled m;
     tray_pause_enabled := tray_pause_enabled m;
     tray_pause_text := tray_pause_text m;
     tray_stop_enabled := tray_stop_enabled m |}.

(** [MainWindow._on_phase_changed]; [has_tray] is
    [hasattr(self, 'tray_icon')]. *)
Definition _on_phase_changed (has_tray : bool)
    (old_state new_state : TimerState) (m : MainWindow) : MainWindow :=
  let m :=
    match new_state with
    | FOCUS =>
      let m := with_keep_awake (KeepAwakeManager.start (keep_awake m)) m in
      if TimerState_eqb old_state IDLE then notify notify_focus_start m
      else m
    | BREAK =>
      let m := with_keep_awake (KeepAwakeManager.start (keep_awake m)) m in
      notify notify_break_start m
    | IDLE =>
      let m := with_keep_awake (KeepAwakeManager.stop (keep_awake m)) m in
      if TimerState_eqb old_state FOCUS then notify notify_focus_complete m
      else if TimerState_eqb old_state BREAK
      then notify notify_break_complete m
      else m
    | PAUSED => m
    end in
  if has_tray then
    let is_running :=
      TimerState_eqb new_state FOCUS || TimerState_eqb new_state BREAK in
    let is_paused := TimerState_eqb new_state PAUSED in
    {| keep_awake := keep_awake m; notices := notices m;
       tray_start_enabled := TimerState_eqb new_state IDLE;
       tray_pause_enabled := is_running || is_paused;
       tray_pause_text := if is_paused then "Resume" else "Pause";
       tray_stop_enabled := is_running || is_paused |}
  else m.

(** The window after the signals of a log: [phase_changed] goes to
    [_on_phase_changed]; the slots of [tick] and [session_completed] set a
    tool tip and refresh the history page. *)
Definition window_hears (has_tray : bool) (m : MainWindow) (e : Effect)
    : MainWindow :=
  match e with
  | phase_changed old_state new_state =>
    _on_phase_changed has_tray old_state new_state m
  | _ => m
  end.

Definition window_after (has_tray awake_setting : bool)
    (t : list Effect) : MainWindow :=
  fold_left (window_hears has_tray) t (main_window awake_setting).



(** A database for the worked runs: the default groups of an opening at
    1000, a row of another application in the settings table, and two
    focus sessions of 25 minutes, of the groups 1 and 2. *)
Definition sample_session (g start : Z) : Session :=
  {| id := None; group_id := g; start_ts := start; end_ts := start + 1500;
     planned_seconds := 1500; actual_seconds := 1500;
     status := value COMPLETED; note := None; created_at := start + 1500;
     is_break := false |}.

Definition sample_db : Database.t :=
  snd (Storage.create_session (sample_session 2 5000)
         (snd (Storage.create_session (sample_session 1 2000)
                 (Storage.with_settings_table [("theme", "dark")]%string
                    (Storage._init_database 1000 Database.empty))))).


(** ** ui/timer_page.py: the listeners of the engine *)

Module TimerPage.

(** What the two slots write: texts and style sheets of the labels, and
    the enabled and visible flags of the buttons and of the configuration
    controls. *)
Record t : Type := {
  phase_label_text : string;
  phase_label_style : string;
  time_label_text : string;
  time_label_style : string;
  progress_label_text : string;
  start_btn_enabled : bool;
  start_btn_text : string;
  pause_btn_enabled : bool;
  pause_btn_text : string;
  stop_btn_enabled : bool;
  skip_break_btn_visible : bool;
  group_combo_enabled : bool;
  preset_combo_enabled : bool;
  focus_spin_enabled : bool;
  break_spin_enabled : bool;
  _use_custom : bool
}.

(** The page as [__init__] and [_setup_ui] leave it: widgets are enabled
    and visible unless the code says otherwise. *)
Definition make : t :=
  {| phase_label_text := "IDLE";
     phase_label_style := "color: #808080; font-size: 20px;";
     time_label_text := "00:00";
     time_label_style := "color: #e0e0e0; font-size: 80px;";
     progress_label_text := "";
     start_btn_enabled := true;
     start_btn_text := "Start Focus";
     pause_btn_enabled := false;
     pause_btn_text := "Pause";
     stop_btn_enabled := false;
     skip_break_btn_visible := false;
     group_combo_enabled := true;
     preset_combo_enabled := true;
     focus_spin_enabled := false;
     break_spin_enabled := false;
     _use_custom := false |}.

Section Slots.

(** [f"{context.progress_percentage:.0f}"], a floating-point quotient
    rounded by the formatting: a function of the total and the remaining
    seconds that is left open here. *)
Variable percent_text : Z -> Z -> string.

(** [f"{n}"] on an integer *)
Definition format_d (n : Z) : string :=
  DecimalString.NilZero.string_of_int (Z.to_int n).

Definition progress_text (c : TimerContext) : string :=
  let elapsed := total_seconds c - remaining_seconds c in
  let elapsed_min := elapsed / 60 in
  let elapsed_sec := elapsed mod 60 in
  let total_min := total_seconds c / 60 in
  (format_d elapsed_min ++ ":" ++ format_02d elapsed_sec ++ " / "
   ++ format_d total_min ++ ":00 ("
   ++ percent_text (total_seconds c) (remaining_seconds c) ++ "%)")%string.

(** [TimerPage._on_tick] *)
Definition _on_tick (c : TimerContext) (p : t) : t :=
  {| phase_label_text := phase_label_text p;
     phase_label_style := phase_label_style p;
     time_label_text := format_remaining c;
     time_label_style := time_label_style p;
     progress_label_text :=
       if negb (TimerState_eqb (state c) IDLE) then progress_text c
       else ""%string;
     start_btn_enabled := start_btn_enabled p;
     start_btn_text := start_btn_text p;
     pause_btn_enabled := pause_btn_enabled p;
     pause_btn_text := pause_btn_text p;
     stop_btn_enabled := stop_btn_enabled p;
     skip_break_btn_visible := skip_break_btn_visible p;
     group_combo_enabled := group_combo_enabled p;
     preset_combo_enabled := preset_combo_enabled p;
     focus_spin_enabled := focus_spin_enabled p;
     break_spin_enabled := break_spin_enabled p;
     _use_custom := _use_custom p |}.

(** [TimerPage._set_config_enabled] *)
Definition _set_config_enabled (enabled : bool) (p : t) : t :=
  let spins :=
    if enabled && _use_custom p then (true, true)
    else if negb enabled then (false, false)
    else (focus_spin_enabled p, break_spin_enabled p) in
  {| phase_label_text := phase_label_text p;
     phase_label_style := phase_label_style p;
     time_label_text := time_label_text p;
     time_label_style := time_label_style p;
     progress_label_text := progress_label_text p;
     start_btn_enabled := start_btn_enabled p;
     start_btn_text := start_btn_text p;
     pause_btn_enabled := pause_btn_enabled p;
     pause_btn_text := pause_btn_text p;
     stop_btn_enabled := stop_btn_enabled p;
     skip_break_btn_visible := skip_break_btn_visible p;
     group_combo_enabled := enabled;
     preset_combo_enabled := enabled;
     focus_spin_enabled := fst spins;
     break_spin_enabled := snd spins;
     _use_custom := _use_custom p |}.

Definition phase_colors (s : TimerState) : string * string :=
  match s with
  | IDLE => ("#808080", "IDLE")
  | FOCUS => ("#66BB6A", "FOCUS")
  | BREAK => ("#42A5F5", "BREAK")
  | PAUSED => ("#FFA726", "PAUSED")
  end%string.

(** [TimerPage._on_phase_changed] *)
Definition _on_phase_changed (old_state new_state : TimerState) (p : t) : t :=
  let (color, text) := phase_colors new_state in
  let p :=
    {| phase_label_text := text;
       phase_label_style := ("color: " ++ color ++ "; font-size: 20px;")%string;
       time_label_text := time_label_text p;
       time_label_style := ("color: " ++ color ++ "; font-size: 80px;")%string;
       progress_label_text := progress_label_text p;
       start_btn_enabled := start_btn_enabled p;
       start_btn_text := start_btn_text p;
       pause_btn_enabled := pause_btn_enabled p;
       pause_btn_text := pause_btn_text p;
       stop_btn_enabled := stop_btn_enabled p;
       skip_break_btn_visible := skip_break_btn_visible p;
       group_combo_enabled := group_combo_enabled p;
       preset_combo_enabled := preset_combo_enabled p;
       focus_spin_enabled := focus_spin_enabled p;
       break_spin_enabled := break_spin_enabled p;
       _use_custom := _use_custom p |} in
  match new_state with
  | IDLE =>
    _set_config_enabled true
      {| phase_label_text := phase_label_text p;
         phase_label_style := phase_label_style p;
         time_label_text := "00:00";
         time_label_style := time_label_style p;
         progress_label_text := "";
         start_btn_enabled := true;
         start_btn_text := "Start Focus";
         pause_btn_enabled := false;
         pause_btn_text := "Pause";
         stop_btn_enabled := false;
         skip_break_btn_visible := false;
         group_combo_enabled := group_combo_enabled p;
         preset_combo_enabled := preset_combo_enabled p;
         focus_spin_enabled := focus_spin_enabled p;
         break_spin_enabled := break_spin_enabled p;
         _use_custom := _use_custom p |}
  | FOCUS | BREAK =>
    _set_config_enabled false
      {| phase_label_text := phase_label_text p;
         phase_label_style := phase_label_style p;
         time_label_text := time_label_text p;
         time_label_style := time_label_style p;
         progress_label_text := progress_label_text p;
         start_btn_enabled := false;
         start_btn_text := start_btn_text p;
         pause_btn_enabled := true;
         pause_btn_text := "Pause";
         stop_btn_enabled := true;
         skip_break_btn_visible := TimerState_eqb new_state BREAK;
         group_combo_enabled := group_combo_enabled p;
         preset_combo_enabled := preset_combo_enabled p;
         focus_spin_enabled := focus_spin_enabled p;
         break_spin_enabled := break_spin_enabled p;
         _use_custom := _use_custom p |}
  | PAUSED =>
    {| phase_label_text := phase_label_text p;
       phase_label_style := phase_label_style p;
       time_label_text := time_label_text p;
       time_label_style := time_label_style p;
       progress_label_text := progress_label_text p;
       start_btn_enabled := start_btn_enabled p;
       start_btn_text := start_btn_text p;
       pause_btn_enabled := pause_btn_enabled p;
       pause_btn_text := "Resume";
       stop_btn_enabled := stop_btn_enabled p;
       skip_break_btn_visible := skip_break_btn_visible p;
       group_combo_enabled := group_combo_enabled p;
       preset_combo_enabled := preset_combo_enabled p;
       focus_spin_enabled := focus_spin_enabled p;
       break_spin_enabled := break_spin_enabled p;
       _use_custom := _use_custom p |}
  end.

(** The page after the signals of a log, from the page [p]. *)
Definition hears (p : t) (e : Effect) : t :=
  match e with
  | tick c => _on_tick c p
  | phase_changed old_state new_state =>
    _on_phase_changed old_state new_state p
  | _ => p
  end.

Definition after (log : list Effect) (p : t) : t :=
  fold_left hears log p.

(** The page shows the engine as it is. *)
Definition shows (w : World) (p : t) : Prop :=
  let c := context w in
  let idle := TimerState_eqb (state c) IDLE in
  let paused := TimerState_eqb (state c) PAUSED in
  phase_label_text p = snd (phase_colors (state c)) /\
  time_label_text p = format_remaining c /\
  progress_label_text p = (if idle then ""%string else progress_text c) /\
  start_btn_enabled p = idle /\
  pause_btn_enabled p = negb idle /\
  stop_btn_enabled p = negb idle /\
  pause_btn_text p = (if paused then "Resume"%string else "Pause"%string) /\
  skip_break_btn_visible p
  = (TimerState_eqb (state c) BREAK
     || paused && match state_before_pause w with
                  | Some BREAK => true
                  | _ => false
                  end) /\
  group_combo_enabled p = idle /\
  preset_combo_enabled p = idle /\
  (idle = false ->
   focus_spin_enabled p = false /\ break_spin_enabled p = false).

End Slots.

End TimerPage.


(** Reading a display of the form [MM:SS] back: its shape, and the seconds
    it stands for. *)
Definition digit_value (a : ascii) : option Z :=
  let n := Z.of_nat (nat_of_ascii a) in
  if (48 <=? n) && (n <=? 57) then Some (n - 48) else None.

Definition mmss_value (s : string) : option Z :=
  match s with
  | String m1 (String m0 (String ":" (String s1 (String s0 EmptyString)))) =>
    match digit_value m1, digit_value m0, digit_value s1, digit_value s0 with
    | Some a, Some b, Some c, Some d =>
      if c <? 6 then Some ((a * 10 + b) * 60 + (c * 10 + d)) else None
    | _, _, _, _ => None
    end
  | _ => None
  end.

(** A context that shows the given remaining time. *)
Definition showing (remaining : Z) : TimerContext :=
  {| state := FOCUS; remaining_seconds := remaining; total_seconds := 0;
     current_group_id := None; focus_minutes := 25; break_minutes := 5;
     session_start_ts := 0; pause_start_ts := 0; total_paused_seconds := 0 |}.


Section Callers.

Variable clk : nat -> Z.

(** [TimerPage._on_pause_clicked] and [MainWindow._tray_toggle_pause]:
    the one button for pause and resume. *)
Definition _on_pause_clicked : Eng unit :=
  p <- is_paused ;;
  if p then resume clk else pause clk.

(** [TimerPage._on_start_clicked] and [MainWindow._tray_start_focus], from
    the state of the widgets; an [IndexError] in [_get_current_timing]
    leaves the engine as it is. *)
Definition _on_start_clicked (use_custom : bool)
    (focus_spin break_spin preset_index : Z) (group_id : option Z)
    : Eng unit :=
  match _get_current_timing use_custom focus_spin break_spin preset_index with
  | Some (focus_min, break_min) => start_focus clk focus_min break_min group_id
  | None => ret tt
  end.

End Callers.

(** Clocks and settings of the worked scenarios. *)
Definition clock_of (readings : list Z) (later : Z) (i : nat) : Z :=
  nth i readings later.

Definition seconds_clock (i : nat) : Z := 1000 + Z.of_nat i.

Definition settings_with (auto_break auto_focus log : bool) : AppSettings :=
  {| auto_start_break := auto_break; auto_start_focus := auto_focus;
     keep_screen_awake := true; sound_enabled := true;
     notification_enabled := true; log_breaks := log |}.

(** A pause mark is kept only while paused. *)
Definition pause_mark_clear (w : World) : Prop :=
  state (context w) <> PAUSED -> pause_start_ts (context w) = 0.

(** Break completion with breaks logged and focus restarting by itself:
    a focus of 25 minutes from 1000, its break of 5 minutes from 2500,
    and the clock at 2800 from then on. *)
Definition clock_auto : nat -> Z :=
  clock_of [1000; 2500; 2500; 2500; 2500; 2500; 2500] 2800.

Definition in_logged_break : World :=
  run clock_auto
    [CSaveSettings (settings_with true true true);
     CStartFocus 25 5 (Some 3); CTick] init_world.

(** Focus completion without automatic break: a focus of 25 minutes from
    1000 and the clock at 2500 from then on. *)
Definition clock_plain : nat -> Z := clock_of [1000] 2500.

Definition in_plain_focus : World :=
  run clock_plain
    [CSaveSettings (settings_with false false false);
     CStartFocus 25 5 None] init_world.

(** A break started by hand over a paused focus: focus from 100, paused at
    110, break from 120, and the clock at 200 from then on. *)
Definition clock_manual : nat -> Z := clock_of [100; 110; 120] 200.

Definition break_over_pause : World :=
  run clock_manual
    [CSaveSettings (settings_with true false true);
     CStartFocus 25 5 None; CPause; CStartBreak] init_world.

(** A focus of 25 minutes in progress, on a clock that advances a second a
    reading. *)
Definition in_focus : World :=
  run seconds_clock [CStartFocus 25 5 (Some 1)] init_world.


(** ** Further vocabulary: what the listeners of the engine see *)


(** The context [_reset_to_idle] leaves: the category and the minutes of
    the last session stay. *)
Definition idle_context (c : TimerContext) : TimerContext :=
  {| state := IDLE; remaining_seconds := 0; total_seconds := 0;
     current_group_id := current_group_id c;
     focus_minutes := focus_minutes c; break_minutes := break_minutes c;
     session_start_ts := 0; pause_start_ts := 0;
     total_paused_seconds := 0 |}.

(** A listener that follows the phase through the [phase_changed] signals
    alone: it starts in Idle, takes the new phase of every signal whose old
    phase is the one it holds, and is lost ([None]) at the first signal
    that is not. *)
Definition phase_step (heard : option TimerState) (e : Effect)
    : option TimerState :=
  match heard, e with
  | Some p, phase_changed old_state new_state =>
    if TimerState_eqb p old_state then Some new_state else None
  | _, _ => heard
  end.

Definition phase_heard (t : list Effect) : option TimerState :=
  fold_left phase_step t (Some IDLE).

(** Logs in which every insert is followed at once by the
    [session_completed] of the same record, with the id of the row, and in
    which no other [session_completed] occurs. *)
Inductive paired : list Effect -> Prop :=
| paired_nil : paired []
| paired_tick (t : list Effect) (c : TimerContext) :
    paired t -> paired (t ++ [tick c])
| paired_phase (t : list Effect) (old_state new_state : TimerState) :
    paired t -> paired (t ++ [phase_changed old_state new_state])
| paired_save (t : list Effect) (s : Session) (rowid : Z) :
    paired t ->
    paired ((t ++ [create_session_row s rowid])
              ++ [session_completed (with_id (Some rowid) s)]).

Definition is_insert (e : Effect) : bool :=
  match e with
  | create_session_row _ _ => true
  | _ => false
  end.

Definition is_session_completed (e : Effect) : bool :=
  match e with
  | session_completed _ => true
  | _ => false
  end.

(** The records as the [session_completed] signals carry them. *)
Fixpoint signalled (t : list Effect) : list Session :=
  match t with
  | [] => []
  | session_completed s :: t' => s :: signalled t'
  | _ :: t' => signalled t'
  end.

(** What the engine keeps whatever the commands and the clock. *)
Record Shape (w : World) : Prop := {
  shape_timer : qt_timer_active w = running (context w);
  shape_paused :
    state (context w) = PAUSED ->
    state_before_pause w = Some FOCUS \/ state_before_pause w = Some BREAK;
  shape_idle :
    state (context w) = IDLE ->
    context w = idle_context (context w) /\ state_before_pause w = None;
  shape_focus : state (context w) = FOCUS -> pause_start_ts (context w) = 0;
  shape_tracking :
    current_session_start w = session_start_ts (context w) /\
    current_planned_seconds w = total_seconds (context w)
}.

(** A record as the history and the statistics expect it. *)
Definition record_ok (s : Session) : Prop :=
  0 <= actual_seconds s <= planned_seconds s /\
  start_ts s <= end_ts s <= created_at s.


(** Running a method on a world: unfold the methods and the monad, and
    compute with the records, leaving the arithmetic alone. *)
Ltac engine_run :=
  cbv beta iota zeta delta
    [exec perform cleanup _on_tick _on_phase_complete skip_break stop resume
     pause start_break start_focus _stop_and_save _reset_to_idle
     _save_session time_time is_running is_focus is_break_ is_paused is_idle
     create_session get_settings qt_timer_start qt_timer_stop set_context
     get_context emit running or_zero TimerState_eqb negb orb andb
     execState evalState runState bind ret get put Monad_state
     MonadState_state fst snd
     with_context with_state_before_pause with_qt_timer_active with_tracking
     with_clock_reads with_settings with_lastrowid with_trace with_id
     context state_before_pause qt_timer_active current_session_start
     current_planned_seconds clock_reads settings lastrowid trace
     state remaining_seconds total_seconds current_group_id focus_minutes
     break_minutes session_start_ts pause_start_ts total_paused_seconds
     id group_id start_ts end_ts planned_seconds actual_seconds status note
     created_at is_break
     auto_start_break auto_start_focus log_breaks].

Ltac destruct_world w :=
  let c := fresh "c" in
  let st := fresh "st" in
  destruct w as [c ? ? ? ? ? st ? ?]; destruct c as [? ? ? ? ? ? ? ? ?];
  destruct st as [? ? ? ? ? ?].

Ltac split_ifs :=
  repeat match goal with
  | |- context [if ?b then _ else _] => destruct b eqn:?; engine_run
  | |- context [match ?o with Some _ => _ | None => _ end] =>
    destruct o eqn:?; engine_run
  end.

(** Arithmetic over clock readings: every reading that occurs is compared
    with the others through the monotonicity [mono] of the clock, and the
    facts known of all later readings are taken at the ones that occur. *)
Ltac clock_readings k :=
  repeat match goal with
  | |- context [?clk ?a] =>
    lazymatch type of clk with nat -> Z => idtac end; k a
  | _ : context [?clk ?a] |- _ =>
    lazymatch type of clk with nat -> Z => idtac end; k a
  end.

Ltac mark_reading mono H a :=
  lazymatch goal with
  | _ : a = a |- _ => fail
  | _ =>
    assert (a = a) by reflexivity;
    repeat match goal with
    | _ : ?b = ?b |- _ =>
      lazymatch type of b with nat => idtac end;
      lazymatch goal with
      | _ : (a <= b)%nat -> _ <= _ |- _ => fail
      | _ => pose proof (mono a b); pose proof (mono b a)
      end
    end
  end.

Ltac clock_lia mono :=
  intros;
  repeat match goal with
  | H : _ /\ _ |- _ => destruct H
  | |- _ /\ _ => split
  | |- forall _, _ => intro
  end;
  clock_readings ltac:(fun a => mark_reading mono I a);
  repeat match goal with
  | H : forall i : nat, (_ <= i)%nat -> _, E : ?a = ?a |- _ =>
    lazymatch type of a with nat => idtac end;
    lazymatch goal with
    | _ : H = H -> a = a |- _ => fail
    | _ => pose proof (H a); assert (H = H -> a = a) by (intros _; reflexivity)
    end
  end;
  first [lia | left; reflexivity | right; reflexivity].

(** * Properties *)

Section Properties.

Variable clk : nat -> Z.

(** ** The log of a call *)

Lemma new_effects_app (w w' : World) (l : list Effect) :
  trace w' = trace w ++ l -> new_effects w w' = l.
Proof.
  intros H. unfold new_effects. rewrite H, skipn_app, skipn_all, Nat.sub_diag.
  reflexivity.
Qed.

(** What [_save_session] computes where the pause mark tells whether the
    engine is paused and the tracked start is the start of the context:
    the time since the start, up to the pause if there is one, without the
    pauses before, brought into [0, planned_seconds]. *)
Lemma save_session_actual_seconds (completed is_break : bool) (w : World) :
  current_session_start w = session_start_ts (context w) ->
  (0 < pause_start_ts (context w) <-> state (context w) = PAUSED) ->
  let c := context w in
  let now := clk (clock_reads w) in
  exists s : Session,
    persisted (new_effects w (execState (_save_session clk completed is_break) w))
      = [s] /\
    planned_seconds s = current_planned_seconds w /\
    actual_seconds s =
      Z.max 0
        (Z.min
           (if TimerState_eqb (state c) PAUSED
            then pause_start_ts c - session_start_ts c - total_paused_seconds c
            else now - session_start_ts c - total_paused_seconds c)
           (planned_seconds s)) /\
    (0 <= planned_seconds s -> 0 <= actual_seconds s <= planned_seconds s).
Proof.
  intros Hstart Hmark c now. subst c now.
  destruct_world w. cbn in Hstart, Hmark. subst.
  eexists. split; [| split; [| split]].
  - erewrite new_effects_app.
    2:{ engine_run. rewrite <- app_assoc. reflexivity. }
    reflexivity.
  - reflexivity.
  - cbn. destruct (Z.ltb_spec 0 pause_start_ts0) as [Hp | Hp].
    + rewrite (proj1 Hmark Hp). reflexivity.
    + destruct state0; try reflexivity. exfalso.
      assert (0 < pause_start_ts0) by (apply Hmark; reflexivity). lia.
  - cbn. lia.
Qed.

(** Every command keeps the pause mark clear outside Paused, except
    [start_break] on a paused engine. *)
Lemma pause_mark_clear_exec (cmd : Command) (w : World) :
  (cmd = CStartBreak -> state (context w) <> PAUSED) ->
  pause_mark_clear w -> pause_mark_clear (exec clk cmd w).
Proof.
  unfold pause_mark_clear. intros Hcmd Hw. destruct_world w. cbn in Hcmd, Hw.
  destruct cmd; destruct state0; engine_run; split_ifs; cbn;
    intros Hst; try reflexivity; try congruence;
    try (apply Hw; discriminate).
  all: try (exfalso; apply Hcmd; reflexivity).
  all: destruct t; try reflexivity; try congruence; apply Hw.
Qed.

(** A break that runs out with [log_breaks] and [auto_start_focus] set is
    handed to the storage twice by the one tick: as completed by
    [_on_phase_complete], and as interrupted by the [_stop_and_save] of the
    [start_focus] that restarts the focus from the Break state. *)
Lemma break_completion_saves_twice (w : World) :
  state (context w) = BREAK ->
  log_breaks (settings w) = true ->
  auto_start_focus (settings w) = true ->
  remaining_at (context w) (clk (clock_reads w)) <= 0 ->
  exists s1 s2 : Session,
    persisted (new_effects w (exec clk CTick w)) = [s1; s2] /\
    status s1 = value COMPLETED /\ status s2 = value INTERRUPTED /\
    is_break s1 = true /\ is_break s2 = true /\
    start_ts s1 = current_session_start w /\
    start_ts s2 = current_session_start w /\
    state (context (exec clk CTick w)) = FOCUS.
Proof.
  intros Hst Hlog Hauto Hrem. destruct_world w. cbn in Hst, Hlog, Hauto, Hrem.
  subst. apply Z.leb_le in Hrem.
  do 2 eexists. split.
  - erewrite new_effects_app.
    2:{ engine_run. rewrite Hrem. engine_run. rewrite <- !app_assoc.
        reflexivity. }
    reflexivity.
  - repeat split. engine_run. rewrite Hrem. reflexivity.
Qed.

(** The same for a focus that runs out with [auto_start_break] set:
    [_on_phase_complete] saves it and [start_break], called from the Focus
    state, saves it again. *)
Lemma focus_completion_saves_twice (w : World) :
  state (context w) = FOCUS ->
  auto_start_break (settings w) = true ->
  remaining_at (context w) (clk (clock_reads w)) <= 0 ->
  exists s1 s2 : Session,
    persisted (new_effects w (exec clk CTick w)) = [s1; s2] /\
    status s1 = value COMPLETED /\ status s2 = value COMPLETED /\
    is_break s1 = false /\ is_break s2 = false /\
    start_ts s1 = current_session_start w /\
    start_ts s2 = current_session_start w /\
    state (context (exec clk CTick w)) = BREAK.
Proof.
  intros Hst Hauto Hrem. destruct_world w. cbn in Hst, Hauto, Hrem.
  subst. apply Z.leb_le in Hrem.
  do 2 eexists. split.
  - erewrite new_effects_app.
    2:{ engine_run. rewrite Hrem. engine_run. rewrite <- !app_assoc.
        reflexivity. }
    reflexivity.
  - repeat split. engine_run. rewrite Hrem. reflexivity.
Qed.


(** A phase that runs out without automatic continuation: the tick emits
    [tick] once, before the completion, and ends on the [phase_changed] to
    Idle; between the two there is at most the saving of the session. *)
Lemma completion_to_idle_signals (w : World) :
  running (context w) = true ->
  (state (context w) = FOCUS -> auto_start_break (settings w) = false) ->
  (state (context w) = BREAK -> auto_start_focus (settings w) = false) ->
  remaining_at (context w) (clk (clock_reads w)) <= 0 ->
  exists (c : TimerContext) (mid : list Effect),
    new_effects w (exec clk CTick w) =
      tick c :: mid ++ [phase_changed (state (context w)) IDLE] /\
    state c = state (context w) /\
    forallb (fun e => negb (is_tick e)) mid = true /\
    state (context (exec clk CTick w)) = IDLE.
Proof.
  intros Hrun Hf Hb Hrem. destruct_world w. cbn in Hrun, Hf, Hb, Hrem.
  apply Z.leb_le in Hrem.
  destruct state0; try discriminate.
  - specialize (Hf eq_refl). subst auto_start_break0.
    do 2 eexists. split.
    { erewrite new_effects_app.
      2:{ engine_run. rewrite Hrem. engine_run. rewrite <- !app_assoc.
          cbn [app]. reflexivity. }
      f_equal. instantiate (1 := [_; _]). reflexivity. }
    repeat split. engine_run. rewrite Hrem. reflexivity.
  - specialize (Hb eq_refl). subst auto_start_focus0.
    destruct log_breaks0.
    + do 2 eexists. split.
      { erewrite new_effects_app.
        2:{ engine_run. rewrite Hrem. engine_run. rewrite <- !app_assoc.
            cbn [app]. reflexivity. }
        f_equal. instantiate (1 := [_; _]). reflexivity. }
      repeat split. engine_run. rewrite Hrem. reflexivity.
    + eexists. exists []. split.
      { erewrite new_effects_app.
        2:{ engine_run. rewrite Hrem. engine_run. rewrite <- !app_assoc.
            cbn [app]. reflexivity. }
        reflexivity. }
      repeat split. engine_run. rewrite Hrem. reflexivity.
Qed.

(** ** Commands outside their guard *)

(** C6. A command issued in a state that violates its guard changes nothing:
    [pause] outside Focus and Break, [resume] outside Paused, [skip_break]
    outside Break and [stop] in Idle return the world they were given, with
    the same context, the same log of signals and records, and no clock read. *)
Theorem guard_violations_are_noops (w : World) :
  (running (context w) = false -> execState (pause clk) w = w) /\
  (state (context w) <> PAUSED -> execState (resume clk) w = w) /\
  (state (context w) <> BREAK -> execState (skip_break clk) w = w) /\
  (state (context w) = IDLE -> execState (stop clk) w = w).
Proof.
  destruct_world w.
  repeat split; intros H; destruct state0; engine_run; cbn in H;
    try reflexivity; try discriminate; try contradiction.
Qed.

(** ** Saving a session *)


(** ** The category of a session *)

Lemma exec_keeps_group (cmd : Command) (w : World) :
  is_start_focus cmd = false ->
  current_group_id (context (exec clk cmd w)) = current_group_id (context w).
Proof.
  intros Hc. destruct_world w.
  destruct cmd; try discriminate; destruct state0;
    engine_run; split_ifs; reflexivity.
Qed.

Lemma start_focus_sets_group (f b : Z) (g : option Z) (w : World) :
  current_group_id (context (exec clk (CStartFocus f b g) w)) = g.
Proof.
  destruct_world w.
  destruct state0; engine_run; split_ifs; reflexivity.
Qed.

Lemma run_keeps_group (cmds : list Command) (w : World) :
  Forall (fun cmd => is_start_focus cmd = false) cmds ->
  current_group_id (context (run clk cmds w)) = current_group_id (context w).
Proof.
  intros Hcmds. revert w.
  induction Hcmds as [| cmd cmds Hcmd _ IH]; intros w.
  - reflexivity.
  - change (run clk (cmd :: cmds) w) with (run clk cmds (exec clk cmd w)).
    rewrite IH. apply exec_keeps_group, Hcmd.
Qed.

(** C9. The category given to [start_focus] stays in the context through
    everything that follows until the next [start_focus] command: pauses,
    resumes, the break that is started by hand or by the completion of the
    focus phase, scheduler ticks, stops. *)
Theorem category_persists_through_break
    (f b : Z) (g : option Z) (cmds : list Command) (w : World) :
  Forall (fun cmd => is_start_focus cmd = false) cmds ->
  current_group_id
    (context (run clk cmds (exec clk (CStartFocus f b g) w))) = g.
Proof.
  intros Hcmds. rewrite (run_keeps_group cmds _ Hcmds).
  apply start_focus_sets_group.
Qed.

(** ** Pauses *)

Lemma on_tick_signals_recomputed (w : World) :
  running (context w) = true ->
  exists (c' : TimerContext) (rest : list Effect),
    trace (execState (_on_tick clk) w) = trace w ++ tick c' :: rest /\
    remaining_seconds c' = remaining_at (context w) (clk (clock_reads w)).
Proof.
  intros Hrun. destruct_world w. cbn in Hrun.
  destruct state0; try discriminate; engine_run; split_ifs;
    rewrite <- ?app_assoc; cbn [app]; do 2 eexists; split; reflexivity.
Qed.

Lemma pause_then_resume (w : World) :
  running (context w) = true ->
  let c := context w in
  let w2 := execState (resume clk) (execState (pause clk) w) in
  state (context w2) = state c /\
  remaining_seconds (context w2) = remaining_seconds c /\
  total_seconds (context w2) = total_seconds c /\
  session_start_ts (context w2) = session_start_ts c /\
  total_paused_seconds (context w2) =
    total_paused_seconds c
    + (clk (S (clock_reads w)) - clk (clock_reads w)) /\
  pause_start_ts (context w2) = 0 /\
  clock_reads w2 = S (S (clock_reads w)).
Proof.
  intros Hrun. destruct_world w. cbn in Hrun.
  destruct state0; try discriminate; engine_run; repeat split.
Qed.

(** C5. Paused time does not count as elapsed.  Let a running phase be
    paused at [t1], resumed at [t2] and ticked at [t3].  The resume adds
    [t2 - t1] to [total_paused_seconds] and restores phase and remaining
    time; the tick signals the remaining time of the instant [t3 - (t2 - t1)],
    whatever the length of the pause.  Against the value before the pause,
    computed at some [t0], it has gone down by at most the running time
    [(t1 - t0) + (t3 - t2)] between the two ticks. *)
Theorem pause_resume_keeps_remaining (w : World) :
  running (context w) = true ->
  let c := context w in
  let t1 := clk (clock_reads w) in
  let t2 := clk (S (clock_reads w)) in
  let t3 := clk (S (S (clock_reads w))) in
  let w2 := execState (resume clk) (execState (pause clk) w) in
  let w3 := execState (_on_tick clk) w2 in
  state (context w2) = state c /\
  remaining_seconds (context w2) = remaining_seconds c /\
  total_paused_seconds (context w2) = total_paused_seconds c + (t2 - t1) /\
  pause_start_ts (context w2) = 0 /\
  exists (c3 : TimerContext) (rest : list Effect),
    trace w3 = trace w2 ++ tick c3 :: rest /\
    remaining_seconds c3 = remaining_at c (t3 - (t2 - t1)) /\
    forall t0 : Z,
      remaining_seconds c = remaining_at c t0 -> t0 <= t1 -> t2 <= t3 ->
      remaining_seconds c - ((t1 - t0) + (t3 - t2)) <= remaining_seconds c3
        <= remaining_seconds c.
Proof.
  intros Hrun c t1 t2 t3 w2 w3.
  destruct (pause_then_resume w Hrun)
    as (Hst & Hrem & Htot & Hsst & Htps & Hpst & Hreads).
  fold c w2 in Hst, Hrem, Htot, Hsst, Htps, Hpst, Hreads.
  fold t1 t2 in Htps.
  repeat (split; [assumption |]).
  destruct (on_tick_signals_recomputed w2) as (c3 & rest & Htr & Hc3).
  { unfold running. rewrite Hst. exact Hrun. }
  assert (Hshift : remaining_seconds c3 = remaining_at c (t3 - (t2 - t1))).
  { rewrite Hc3, Hreads. unfold remaining_at.
    rewrite Htot, Hsst, Htps. fold t3. f_equal. lia. }
  exists c3, rest. repeat split; try assumption.
  - rewrite Hshift, H. unfold remaining_at. lia.
  - rewrite Hshift, H. unfold remaining_at. lia.
Qed.

(** ** The remaining time *)

Lemma Inv_init : Inv clk init_world.
Proof.
  constructor; cbn; unfold timing_ok; cbn; auto; lia.
Qed.

Section Monotone.

Hypothesis mono : clock_monotone clk.

Lemma Inv_exec (cmd : Command) (w : World) :
  valid_command cmd -> Inv clk w -> Inv clk (exec clk cmd w).
Proof.
  intros V [Hm Hr Ht Hc]. destruct_world w.
  unfold timing_ok in Hc. cbn in Hm, Hr, Ht, Hc. destruct Ht; subst.
  destruct cmd; cbn in V; destruct state0; engine_run; split_ifs.
  all: constructor; unfold timing_ok; cbn; unfold remaining_at in *; cbn in *.
  all: try solve [intuition (try discriminate; lia)].
  all: try solve [clock_lia mono].
  destruct Hc as [[E | E] Hc]; injection E as ->; clock_lia mono.
Qed.







End Monotone.


(** ** Starting over a session in progress *)

(** C4. [start_focus] on an engine that is not idle first stops and saves:
    a focus session, running or paused, is persisted as interrupted, a break
    only when [log_breaks] is set, the engine passes through Idle with its
    two signals; then it goes on as from Idle and ends in Focus with
    [total_seconds = focus_minutes * 60], the whole of it remaining, the
    session starting at the reading of the clock and no paused time. *)
Theorem start_focus_interrupts_previous
    (f b : Z) (g : option Z) (w : World) :
  state (context w) <> IDLE ->
  let w1 := execState (_stop_and_save clk true) w in
  let w' := execState (start_focus clk f b g) w in
  let rowid := lastrowid w + 1 in
  (was_focus w ->
   exists s : Session,
     trace w1 =
       trace w ++ [create_session_row s rowid;
                   session_completed (with_id (Some rowid) s);
                   phase_changed (state (context w)) IDLE;
                   tick (context w1)] /\
     status s = value INTERRUPTED /\ is_break s = false /\
     start_ts s = current_session_start w /\
     planned_seconds s = current_planned_seconds w) /\
  (was_break w -> log_breaks (settings w) = true ->
   exists s : Session,
     trace w1 =
       trace w ++ [create_session_row s rowid;
                   session_completed (with_id (Some rowid) s);
                   phase_changed (state (context w)) IDLE;
                   tick (context w1)] /\
     status s = value INTERRUPTED /\ is_break s = true) /\
  (was_break w -> log_breaks (settings w) = false ->
   trace w1 =
     trace w ++ [phase_changed (state (context w)) IDLE; tick (context w1)]) /\
  state (context w1) = IDLE /\
  w' = execState (start_focus clk f b g) w1 /\
  trace w' = trace w1 ++ [phase_changed IDLE FOCUS; tick (context w')] /\
  context w' =
    {| state := FOCUS;
       remaining_seconds := f * 60;
       total_seconds := f * 60;
       current_group_id := g;
       focus_minutes := f;
       break_minutes := b;
       session_start_ts := clk (clock_reads w1);
       pause_start_ts := 0;
       total_paused_seconds := 0 |}.
Proof.
  intros Hst. destruct_world w. cbn in Hst.
  unfold was_focus, was_break.
  destruct state0; try congruence;
    destruct state_before_pause0 as [[] |]; destruct log_breaks0;
    engine_run; split_ifs.
  all: repeat match goal with
       | |- _ /\ _ => split
       | |- _ = _ => rewrite <- ?app_assoc; reflexivity
       end.
  all: intros; try solve [intuition congruence].
  all: try solve [rewrite <- !app_assoc; reflexivity].
  all: eexists; split;
    [ rewrite <- !app_assoc; cbn [app];
      apply f_equal; apply f_equal2; reflexivity
    | repeat split ].
Qed.


End Properties.

(** * The engine over whole runs *)

Section Runs.

Variable clk : nat -> Z.

Lemma Shape_init : Shape init_world.
Proof.
  constructor; cbn; try discriminate; auto.
Qed.

Lemma Shape_exec (cmd : Command) (w : World) :
  Shape w -> Shape (exec clk cmd w).
Proof.
  intros [Ht Hp Hi Hf Hk]. destruct_world w.
  unfold idle_context in Hi. cbn in Ht, Hp, Hi, Hf, Hk. destruct Hk; subst.
  destruct cmd; destruct state0; engine_run; split_ifs.
  all: try (destruct (Hi eq_refl) as [Hc Hb]; injection Hc as -> -> -> -> ->;
            try discriminate Hb).
  all: try (destruct (Hp eq_refl) as [Hb | Hb]; try discriminate Hb;
            injection Hb as ->).
  all: try (rewrite (Hf eq_refl) in *).
  all: constructor; unfold idle_context; cbn;
    try solve [intuition (try discriminate; try congruence)].
Qed.

Lemma Shape_run (cmds : list Command) (w : World) :
  Shape w -> Shape (run clk cmds w).
Proof.
  revert w. induction cmds as [| cmd cmds IH]; intros w Hw.
  - exact Hw.
  - change (run clk (cmd :: cmds) w) with (run clk cmds (exec clk cmd w)).
    apply IH, Shape_exec, Hw.
Qed.

(** X1. Whatever commands and ticks the engine has received since its
    creation, its Qt timer is active exactly when it is in Focus or Break:
    stopped in Idle and in Paused, running otherwise. *)
Theorem timer_active_iff_running (cmds : list Command) :
  qt_timer_active (run clk cmds init_world) =
  running (context (run clk cmds init_world)).
Proof.
  apply Shape_run, Shape_init.
Qed.

(** X2. In every Idle state the engine reaches, the context is the one
    [_reset_to_idle] writes: no remaining or total time, no timestamps, no
    paused time, no remembered phase and nothing tracked for saving; only
    the category and the minutes of the last session stay. *)
Theorem idle_is_reset (cmds : list Command) :
  let w := run clk cmds init_world in
  state (context w) = IDLE ->
  context w = idle_context (context w) /\
  state_before_pause w = None /\
  current_session_start w = 0 /\
  current_planned_seconds w = 0 /\
  qt_timer_active w = false.
Proof.
  intros w Hidle.
  destruct (Shape_run cmds init_world Shape_init) as [Ht Hp Hi Hf [Hs Hk]].
  fold w in Ht, Hp, Hi, Hf, Hs, Hk.
  destruct (Hi Hidle) as [Hc Hb].
  repeat split; try assumption.
  - rewrite Hs, Hc. reflexivity.
  - rewrite Hk, Hc. reflexivity.
  - rewrite Ht. unfold running. rewrite Hidle. reflexivity.
Qed.

(** X3. A paused engine always remembers the phase it suspended, so
    [resume] never stays in Paused: it returns to Focus or Break, the
    remembered phase, starts the timer again, clears the pause mark and
    announces the change. *)
Theorem resume_leaves_paused (cmds : list Command) :
  let w := run clk cmds init_world in
  let w' := execState (resume clk) w in
  state (context w) = PAUSED ->
  (state (context w') = FOCUS \/ state (context w') = BREAK) /\
  state_before_pause w = Some (state (context w')) /\
  state_before_pause w' = None /\
  qt_timer_active w' = true /\
  pause_start_ts (context w') = 0 /\
  trace w' =
    trace w ++ [phase_changed PAUSED (state (context w')); tick (context w')].
Proof.
  intros w w' Hpaused. subst w'.
  destruct (Shape_run cmds init_world Shape_init) as [_ Hp _ _ _].
  fold w in Hp. specialize (Hp Hpaused). clearbody w.
  destruct_world w. cbn in Hpaused, Hp. subst.
  destruct Hp as [-> | ->]; engine_run; rewrite <- app_assoc;
    repeat split; auto.
Qed.

Lemma phase_heard_exec (cmd : Command) (w : World) :
  phase_heard (trace w) = Some (state (context w)) ->
  phase_heard (trace (exec clk cmd w)) =
    Some (state (context (exec clk cmd w))).
Proof.
  unfold phase_heard. intros H. destruct_world w. cbn in H.
  destruct cmd; destruct state0; engine_run; split_ifs;
    rewrite ?fold_left_app, H; try reflexivity.
  all: destruct t; reflexivity.
Qed.

(** X4. The [phase_changed] signals form one unbroken chain from Idle: the
    old phase of each signal is the new phase of the one before, and the new
    phase of the last one is the phase the engine is in.  A listener that
    follows the phase by the signals alone is never out of step. *)
Theorem phase_changed_chain (cmds : list Command) :
  phase_heard (trace (run clk cmds init_world)) =
    Some (state (context (run clk cmds init_world))).
Proof.
  assert (H : phase_heard (trace init_world) =
              Some (state (context init_world))) by reflexivity.
  revert H. generalize init_world as w.
  induction cmds as [| cmd cmds IH]; intros w Hw.
  - exact Hw.
  - change (run clk (cmd :: cmds) w) with (run clk cmds (exec clk cmd w)).
    apply IH, phase_heard_exec, Hw.
Qed.

Lemma persisted_app (t1 t2 : list Effect) :
  persisted (t1 ++ t2) = persisted t1 ++ persisted t2.
Proof.
  induction t1 as [| e t1 IH]; [reflexivity |].
  destruct e; cbn; rewrite IH; reflexivity.
Qed.

Lemma signalled_app (t1 t2 : list Effect) :
  signalled (t1 ++ t2) = signalled t1 ++ signalled t2.
Proof.
  induction t1 as [| e t1 IH]; [reflexivity |].
  destruct e; cbn; rewrite IH; reflexivity.
Qed.

Lemma paired_signalled (t : list Effect) :
  paired t -> signalled t = persisted t.
Proof.
  induction 1 as [| t c _ IH | t o n _ IH | t s rowid _ IH].
  - reflexivity.
  - rewrite signalled_app, persisted_app, IH. reflexivity.
  - rewrite signalled_app, persisted_app, IH. reflexivity.
  - rewrite !signalled_app, !persisted_app, IH. cbn.
    rewrite !app_nil_r. reflexivity.
Qed.

Lemma paired_exec (cmd : Command) (w : World) :
  paired (trace w) -> paired (trace (exec clk cmd w)).
Proof.
  intros H. destruct_world w. cbn in H.
  destruct cmd; destruct state0; engine_run; split_ifs; try assumption.
  all: repeat
         match goal with
         | |- paired (_ ++ [tick _]) => apply paired_tick
         | |- paired (_ ++ [phase_changed _ _]) => apply paired_phase
         | |- paired ((?t ++ [create_session_row ?s ?r])
                        ++ [session_completed _]) =>
           apply (paired_save t s r)
         end; assumption.
Qed.

(** X5. [session_completed] is emitted once for every record handed to the
    storage and for nothing else: in the log of every run, each insert is
    followed at once by the signal carrying the same record with the id of
    its row, so the records signalled are the records stored, in order. *)
Theorem session_completed_once_per_record (cmds : list Command) :
  let t := trace (run clk cmds init_world) in
  paired t /\
  signalled t = persisted t /\
  List.length (filter is_session_completed t) =
    List.length (filter is_insert t).
Proof.
  intros t.
  assert (Hp : paired t).
  { subst t. assert (H : paired (trace init_world)) by constructor.
    revert H. generalize init_world as w.
    induction cmds as [| cmd cmds IH]; intros w Hw.
    - exact Hw.
    - change (run clk (cmd :: cmds) w) with (run clk cmds (exec clk cmd w)).
      apply IH, paired_exec, Hw. }
  split; [exact Hp |]. split; [apply paired_signalled, Hp |].
  clearbody t. induction Hp as [| t c _ IH | t o n _ IH | t s rowid _ IH].
  - reflexivity.
  - rewrite !filter_app, !length_app, IH. reflexivity.
  - rewrite !filter_app, !length_app, IH. reflexivity.
  - rewrite !filter_app, !length_app, IH. cbn. lia.
Qed.


(** X7. [stop] in a Focus phase the engine has reached hands the storage
    exactly one record: interrupted, not a break, started at the start of
    the phase, planned for its whole length, with the time since the start
    without the pauses as [actual_seconds], brought into
    [0, planned_seconds].  The engine is idle afterwards, and the call ends
    with [phase_changed FOCUS IDLE] and a [tick] of the idle context. *)
Theorem stop_in_focus_saves_interrupted (cmds : list Command) :
  let w := run clk cmds init_world in
  let c := context w in
  let now := clk (clock_reads w) in
  let w' := execState (stop clk) w in
  let s :=
    {| id := None;
       group_id := or_zero (current_group_id c);
       start_ts := session_start_ts c;
       end_ts := now;
       planned_seconds := total_seconds c;
       actual_seconds :=
         Z.max 0 (Z.min (now - session_start_ts c - total_paused_seconds c)
                        (total_seconds c));
       status := "interrupted";
       note := None;
       created_at := clk (S (clock_reads w));
       is_break := false |} in
  state c = FOCUS ->
  new_effects w w' =
    [create_session_row s (lastrowid w + 1);
     session_completed (with_id (Some (lastrowid w + 1)) s);
     phase_changed FOCUS IDLE;
     tick (idle_context c)] /\
  context w' = idle_context c /\
  qt_timer_active w' = false.
Proof.
  intros w c now w' s Hfocus. subst c now w' s.
  destruct (Shape_run cmds init_world Shape_init) as [_ _ _ Hf [Hs Hk]].
  fold w in Hf, Hs, Hk. specialize (Hf Hfocus). clearbody w.
  destruct_world w. cbn in Hfocus, Hf, Hs, Hk. subst.
  split; [| split; reflexivity].
  apply new_effects_app. engine_run. rewrite Z.ltb_irrefl.
  rewrite <- !app_assoc. reflexivity.
Qed.

(** X8. [skip_break] in a Break leaves the engine idle with the timer
    stopped.  It hands the storage nothing when [log_breaks] is off, and one
    record, interrupted and a break, when it is on; either way the call ends
    with [phase_changed BREAK IDLE] and a [tick] of the idle context. *)
Theorem skip_break_logs_on_request (w : World) :
  state (context w) = BREAK ->
  let c := context w in
  let w' := execState (skip_break clk) w in
  context w' = idle_context c /\
  state_before_pause w' = None /\
  qt_timer_active w' = false /\
  (log_breaks (settings w) = false ->
   new_effects w w' = [phase_changed BREAK IDLE; tick (idle_context c)]) /\
  (log_breaks (settings w) = true ->
   exists s : Session,
     new_effects w w' =
       [create_session_row s (lastrowid w + 1);
        session_completed (with_id (Some (lastrowid w + 1)) s);
        phase_changed BREAK IDLE;
        tick (idle_context c)] /\
     status s = "interrupted"%string /\ is_break s = true /\
     start_ts s = current_session_start w /\
     planned_seconds s = current_planned_seconds w).
Proof.
  intros Hbreak c w'. subst c w'. destruct_world w. cbn in Hbreak. subst.
  destruct log_breaks0; do 3 (split; [reflexivity |]);
    (split; intros E; cbn in E; try discriminate E).
  - eexists. split.
    + apply new_effects_app. engine_run. rewrite <- !app_assoc. cbn [app].
      apply f_equal. apply f_equal2; reflexivity.
    + repeat split.
  - apply new_effects_app. engine_run. rewrite <- !app_assoc. reflexivity.
Qed.

(** X9. [cleanup] leaves the engine idle with the timer stopped, whatever
    the state it is called in, and calling it again changes nothing.  A
    focus in progress, running or paused, is handed to the storage as
    interrupted before the engine goes idle. *)
Theorem cleanup_leaves_idle (w : World) :
  let w' := execState (cleanup clk) w in
  state (context w') = IDLE /\
  qt_timer_active w' = false /\
  execState (cleanup clk) w' = w' /\
  (state (context w) = IDLE -> trace w' = trace w) /\
  (was_focus w ->
   exists s : Session,
     persisted (new_effects w w') = [s] /\
     id s = Some (lastrowid w + 1) /\
     status s = "interrupted"%string /\ is_break s = false /\
     start_ts s = current_session_start w).
Proof.
  intros w'. subst w'. destruct_world w. unfold was_focus.
  destruct state0; destruct state_before_pause0 as [[] |]; engine_run;
    split_ifs; repeat split; try discriminate; try reflexivity;
    intros H; try solve [exfalso; intuition congruence].
  all: eexists; split;
    [ erewrite new_effects_app; [| rewrite <- !app_assoc; reflexivity];
      cbn [persisted app]; reflexivity
    | repeat split ].
Qed.


(** X11. [start_break] ends in Break from whatever state: the break lasts
    [break_minutes * 60] seconds, all of them remaining, starts at the
    reading of the clock with no paused time, keeps category and minutes and
    has the timer running.  Only a Focus state is saved, as completed; from
    Idle, Break or Paused nothing is handed to the storage, so a paused
    session is dropped without a record. *)
Theorem start_break_enters_break (w : World) :
  let c := context w in
  let w' := execState (start_break clk) w in
  let c' := context w' in
  state c' = BREAK /\
  total_seconds c' = break_minutes c * 60 /\
  remaining_seconds c' = break_minutes c * 60 /\
  total_paused_seconds c' = 0 /\
  session_start_ts c' = last_now clk w' /\
  current_group_id c' = current_group_id c /\
  focus_minutes c' = focus_minutes c /\
  break_minutes c' = break_minutes c /\
  qt_timer_active w' = true /\
  (state c <> FOCUS ->
   new_effects w w' = [phase_changed (state c) BREAK; tick c']) /\
  (state c = FOCUS ->
   exists s : Session,
     new_effects w w' =
       [create_session_row s (lastrowid w + 1);
        session_completed (with_id (Some (lastrowid w + 1)) s);
        phase_changed FOCUS BREAK;
        tick c'] /\
     status s = "completed"%string /\ is_break s = false /\
     start_ts s = current_session_start w /\
     planned_seconds s = current_planned_seconds w).
Proof.
  intros c w' c'. subst c w' c'. destruct_world w. unfold last_now.
  destruct state0; destruct qt_timer_active0; engine_run; split_ifs;
    repeat split; try discriminate; try reflexivity; intros H;
    try congruence.
  all: try (apply new_effects_app; rewrite <- !app_assoc; reflexivity).
  all: eexists; split;
    [ apply new_effects_app; engine_run; rewrite <- !app_assoc; cbn [app];
      apply f_equal; apply f_equal2; reflexivity
    | repeat split ].
Qed.


Section MonotoneRuns.

Hypothesis mono : clock_monotone clk.

Lemma records_ok_exec (cmd : Command) (w : World) :
  valid_command cmd -> Inv clk w ->
  0 <= total_paused_seconds (context w) ->
  Forall record_ok (persisted (trace w)) ->
  0 <= total_paused_seconds (context (exec clk cmd w)) /\
  Forall record_ok (persisted (trace (exec clk cmd w))).
Proof.
  intros V [Hm Hr Ht Hc] Hp Htr. destruct_world w.
  unfold timing_ok in Hc. cbn in Hm, Hr, Ht, Hc, Hp, Htr. destruct Ht; subst.
  destruct cmd; cbn in V; destruct state0; engine_run; split_ifs.
  all: split; [try lia; try clock_lia mono |].
  all: rewrite ?persisted_app; cbn [persisted app]; rewrite ?app_nil_r.
  all: repeat (apply Forall_app; split); try assumption.
  all: try (apply Forall_cons; [| apply Forall_nil]).
  all: unfold record_ok; cbn.
  all: try clock_lia mono.
Qed.

Lemma records_ok_run (cmds : list Command) (w : World) :
  Forall valid_command cmds -> Inv clk w ->
  0 <= total_paused_seconds (context w) ->
  Forall record_ok (persisted (trace w)) ->
  Forall record_ok (persisted (trace (run clk cmds w))).
Proof.
  intros Hcmds. revert w.
  induction Hcmds as [| cmd cmds Hcmd _ IH]; intros w Hw Hp Htr.
  - exact Htr.
  - change (run clk (cmd :: cmds) w) with (run clk cmds (exec clk cmd w)).
    destruct (records_ok_exec cmd w Hcmd Hw Hp Htr) as [Hp' Htr'].
    apply IH; [apply Inv_exec | |]; assumption.
Qed.

(** X6. Over a clock that never goes back, every record the engine hands to
    the storage, through whatever sequence of commands with minutes of at
    least 1, has [0 <= actual_seconds <= planned_seconds] and
    [start_ts <= end_ts <= created_at]. *)
Theorem persisted_records_well_formed (cmds : list Command) :
  Forall valid_command cmds ->
  Forall record_ok (persisted (trace (run clk cmds init_world))).
Proof.
  intros Hcmds. apply records_ok_run; try assumption.
  - apply Inv_init.
  - cbn. lia.
  - constructor.
Qed.



End MonotoneRuns.


End Runs.


(** * The display and the buttons *)

Section Presentation.

Variable clk : nat -> Z.

Lemma format_remaining_showing (c : TimerContext) :
  format_remaining c = format_remaining (showing (remaining_seconds c)).
Proof.
  reflexivity.
Qed.

Lemma mmss_below_100_minutes :
  forallb
    (fun n : nat =>
       match mmss_value (format_remaining (showing (Z.of_nat n))) with
       | Some v => v =? Z.of_nat n
       | None => false
       end)
    (seq 0 (Z.to_nat 6000)) = true.
Proof.
  vm_compute. reflexivity.
Qed.

(** X13. For a remaining time from 0 up to 99 minutes and 59 seconds,
    [format_remaining] is a display of exactly five characters, two digits
    of minutes, a colon and two digits of seconds below 60, and the minutes
    and seconds it shows are the remaining time: no two remaining times
    share a display. *)
Theorem format_remaining_is_mmss (c : TimerContext) :
  0 <= remaining_seconds c < 6000 ->
  mmss_value (format_remaining c) = Some (remaining_seconds c).
Proof.
  intros Hr. rewrite format_remaining_showing.
  pose proof mmss_below_100_minutes as Hall.
  rewrite forallb_forall in Hall.
  specialize (Hall (Z.to_nat (remaining_seconds c))).
  rewrite Z2Nat.id in Hall by lia.
  assert (Hin : In (Z.to_nat (remaining_seconds c)) (seq 0 (Z.to_nat 6000)))
    by (apply in_seq; lia).
  specialize (Hall Hin).
  destruct (mmss_value (format_remaining (showing (remaining_seconds c))))
    as [v |]; [| discriminate].
  apply Z.eqb_eq in Hall. congruence.
Qed.

(** X14. With the spin boxes within their ranges and a preset index the
    combo box can give (from -1 on; Python takes an index down to -4), the
    start button calls [start_focus] with minutes from 1 to 180 and from 1
    to 60: every [start_focus] it issues is a valid command.  A preset index
    below -4 is an [IndexError] and the engine is not called. *)
Theorem start_button_gives_valid_minutes
    (use_custom : bool) (focus_spin break_spin preset_index : Z)
    (group_id : option Z) :
  focus_spin_range focus_spin -> break_spin_range break_spin ->
  (-4 <= preset_index ->
   exists f b : Z,
     _get_current_timing use_custom focus_spin break_spin preset_index
       = Some (f, b) /\
     1 <= f <= 180 /\ 1 <= b <= 60 /\
     valid_command (CStartFocus f b group_id) /\
     _on_start_clicked clk use_custom focus_spin break_spin preset_index
       group_id = start_focus clk f b group_id) /\
  (preset_index < -4 -> use_custom = false ->
   forall w : World,
     execState
       (_on_start_clicked clk use_custom focus_spin break_spin preset_index
          group_id) w = w).
Proof.
  unfold focus_spin_range, break_spin_range. intros Hf Hb. split.
  - intros Hidx. unfold _on_start_clicked, _get_current_timing.
    destruct use_custom.
    + exists focus_spin, break_spin. cbn. repeat split; lia.
    + destruct (Z.ltb_spec preset_index
                  (Z.of_nat (List.length DEFAULT_PRESETS))) as [Hlt | Hge].
      * cbn in Hlt.
        assert (Hcases :
                  preset_index = -4 \/ preset_index = -3 \/
                  preset_index = -2 \/ preset_index = -1 \/
                  preset_index = 0 \/ preset_index = 1 \/
                  preset_index = 2 \/ preset_index = 3) by lia.
        destruct Hcases as [-> | [-> | [-> | [-> | [-> | [-> | [-> | ->]]]]]]];
          cbn; do 2 eexists; (split; [reflexivity |]); cbn;
          repeat split; lia.
      * exists focus_spin, break_spin. cbn. repeat split; lia.
  - intros Hidx -> w. unfold _on_start_clicked, _get_current_timing.
    destruct (Z.ltb_spec preset_index
                (Z.of_nat (List.length DEFAULT_PRESETS))) as [Hlt | Hge];
      [| cbn in Hge; lia].
    unfold py_index.
    destruct (Z.ltb_spec preset_index 0) as [_ | Hge]; [| lia].
    destruct (Z.ltb_spec
                (preset_index + Z.of_nat (List.length DEFAULT_PRESETS)) 0)
      as [_ | Hge]; [reflexivity | cbn in Hge; lia].
Qed.

(** X15. The pause button: in Focus or Break, two clicks pause and resume,
    so the engine is back in the same phase with the same remaining time,
    the timer running and no pause mark, after announcing the way into
    Paused and back; in Idle a click changes nothing. *)
Theorem pause_button_toggles (w : World) :
  let click := execState (_on_pause_clicked clk) in
  (running (context w) = true ->
   click (click w) = execState (resume clk) (execState (pause clk) w) /\
   state (context (click w)) = PAUSED /\
   state (context (click (click w))) = state (context w) /\
   remaining_seconds (context (click (click w))) =
     remaining_seconds (context w) /\
   pause_start_ts (context (click (click w))) = 0 /\
   qt_timer_active (click (click w)) = true /\
   exists c1 c2 : TimerContext,
     new_effects w (click (click w)) =
       [phase_changed (state (context w)) PAUSED; tick c1;
        phase_changed PAUSED (state (context w)); tick c2]) /\
  (state (context w) = IDLE -> click w = w).
Proof.
  intros click. subst click. destruct_world w. unfold _on_pause_clicked.
  split.
  - intros Hrun. cbn in Hrun.
    destruct state0; try discriminate; engine_run; repeat split.
    all: do 2 eexists; apply new_effects_app; engine_run;
      rewrite <- !app_assoc; reflexivity.
  - cbn. intros ->. reflexivity.
Qed.

End Presentation.


(** * The storage *)

(** ** Looking rows up by id *)

Section Lookup.

Context {A : Type} (key : A -> Z).

Lemma find_app_key (i : Z) (l l' : list A) :
  find (fun r => key r =? i) (l ++ l') =
  match find (fun r => key r =? i) l with
  | Some r => Some r
  | None => find (fun r => key r =? i) l'
  end.
Proof.
  induction l as [| x l IH]; cbn; [reflexivity |].
  destruct (key x =? i); [reflexivity | exact IH].
Qed.

Lemma find_key_absent (i : Z) (l : list A) :
  ~ In i (map key l) -> find (fun r => key r =? i) l = None.
Proof.
  induction l as [| x l IH]; cbn; intros H; [reflexivity |].
  destruct (Z.eqb_spec (key x) i) as [E | E]; [tauto |].
  apply IH. tauto.
Qed.

Lemma find_key_above (n i : Z) (l : list A) :
  Forall (fun r => key r <= n) l -> n < i ->
  find (fun r => key r =? i) l = None.
Proof.
  intros H Hi. apply find_key_absent. intros Hin.
  apply in_map_iff in Hin. destruct Hin as [r [E Hr]].
  rewrite Forall_forall in H. specialize (H r Hr). cbn in H. lia.
Qed.

Lemma find_key_sound (i : Z) (l : list A) (r : A) :
  find (fun r => key r =? i) l = Some r -> key r = i /\ In r l.
Proof.
  intros H. apply find_some in H. destruct H as [Hin E].
  split; [apply Z.eqb_eq, E | exact Hin].
Qed.

Lemma existsb_find_key (i : Z) (l : list A) :
  existsb (fun r => key r =? i) l = true <->
  find (fun r => key r =? i) l <> None.
Proof.
  induction l as [| x l IH]; cbn.
  - split; [discriminate | congruence].
  - destruct (key x =? i); cbn; [split; [discriminate | reflexivity] |].
    exact IH.
Qed.

(** Keeping the rows that pass [q], under distinct ids. *)
Lemma find_filter_key (q : A -> bool) (i : Z) (l : list A) :
  NoDup (map key l) ->
  find (fun r => key r =? i) (filter q l) =
  match find (fun r => key r =? i) l with
  | Some r => if q r then Some r else None
  | None => None
  end.
Proof.
  induction l as [| x l IH]; cbn; intros H; [reflexivity |].
  inversion H as [| k ks Hnot Hnd]; subst.
  destruct (Z.eqb_spec (key x) i) as [E | E].
  - destruct (q x) eqn:Q.
    + cbn. destruct (Z.eqb_spec (key x) i); [reflexivity | contradiction].
    + apply find_key_absent. subst i. intros Hin. apply Hnot.
      apply in_map_iff in Hin. destruct Hin as [r [Er Hr]].
      apply filter_In in Hr. apply in_map_iff. exists r. tauto.
  - destruct (q x) eqn:Q.
    + cbn. destruct (Z.eqb_spec (key x) i); [contradiction |]. apply IH, Hnd.
    + apply IH, Hnd.
Qed.

(** Changing rows in place, the ids kept. *)
Lemma find_map_key (f : A -> A) (i : Z) (l : list A) :
  (forall r, key (f r) = key r) ->
  find (fun r => key r =? i) (map f l) =
  option_map f (find (fun r => key r =? i) l).
Proof.
  intros Hf. induction l as [| x l IH]; cbn; [reflexivity |].
  rewrite Hf. destruct (key x =? i); [reflexivity | exact IH].
Qed.

Lemma NoDup_filter_key (q : A -> bool) (l : list A) :
  NoDup (map key l) -> NoDup (map key (filter q l)).
Proof.
  induction l as [| x l IH]; cbn; intros H; [constructor |].
  inversion H as [| k ks Hnot Hnd]; subst.
  destruct (q x); [| apply IH, Hnd].
  cbn. constructor; [| apply IH, Hnd].
  intros Hin. apply Hnot. apply in_map_iff in Hin.
  destruct Hin as [r [Er Hr]]. apply filter_In in Hr.
  apply in_map_iff. exists r. tauto.
Qed.

Lemma NoDup_snoc_key (n : Z) (l : list A) (x : A) :
  NoDup (map key l) -> Forall (fun r => key r <= n) l -> n < key x ->
  NoDup (map key (l ++ [x])).
Proof.
  intros Hnd Hle Hx.
  assert (Hnot : ~ In (key x) (map key l)).
  { intros Hin. apply in_map_iff in Hin. destruct Hin as [r [E Hr]].
    rewrite Forall_forall in Hle. specialize (Hle r Hr). cbn in Hle. lia. }
  clear Hle Hx. rewrite map_app. cbn.
  induction (map key l) as [| k ks IH]; cbn.
  - constructor; [intros [] | constructor].
  - inversion Hnd as [| k' ks' Hk Hks]; subst. constructor.
    + rewrite in_app_iff. cbn. intros [H | [H | []]]; [tauto |].
      apply Hnot. left. symmetry. exact H.
    + apply IH; [exact Hks |]. intros H. apply Hnot. right. exact H.
Qed.

End Lookup.

Lemma Forall_filter {A : Type} (P : A -> Prop) (q : A -> bool) (l : list A) :
  Forall P l -> Forall P (filter q l).
Proof.
  rewrite !Forall_forall. intros H r Hr. apply filter_In in Hr.
  apply H. tauto.
Qed.

(** ** The settings table *)

Lemma hasattr_any (o o' : Attrs.t) (key : string) :
  hasattr o key = hasattr o' key.
Proof.
  unfold hasattr, getattr.
  repeat (match goal with
          | |- context [String.eqb key ?k] => destruct (String.eqb key k)
          end; cbn; try reflexivity).
Qed.

Lemma setattr_parsed (o : Attrs.t) (key : string) (v : PyValue) :
  all_parsed o -> parsed v -> all_parsed (setattr o key v).
Proof.
  destruct o as [a b c d e f]. unfold all_parsed, setattr. cbn.
  intros H Hv.
  repeat (match goal with
          | |- context [String.eqb key ?k] => destruct (String.eqb key k)
          end; cbn; try tauto).
Qed.

Lemma read_setting_parsed (o : Attrs.t) (row : string * string) :
  all_parsed o -> all_parsed (Storage.read_setting o row).
Proof.
  intros H. destruct row as [key value]. unfold Storage.read_setting.
  destruct (hasattr o key); [| exact H].
  destruct (String.eqb (lower value) "true" || String.eqb (lower value) "false")
    eqn:E.
  - apply setattr_parsed; [exact H | exact I].
  - apply setattr_parsed; [exact H | exact E].
Qed.

Lemma get_settings_parsed (db : Database.t) :
  all_parsed (Storage.get_settings db).
Proof.
  unfold Storage.get_settings.
  assert (H : all_parsed (of_flags default_settings)) by (repeat split; exact I).
  revert H. generalize (of_flags default_settings) as o.
  induction (Database.settings db) as [| row rows IH]; intros o H.
  - exact H.
  - cbn. apply IH, read_setting_parsed, H.
Qed.

(** Rows of other keys than the six are passed over. *)
Lemma read_setting_skips (rows : list (string * string)) (o : Attrs.t) :
  Forall (fun r => hasattr o (fst r) = false) rows ->
  fold_left Storage.read_setting rows o = o.
Proof.
  induction rows as [| [key value] rows IH]; intros H; [reflexivity |].
  inversion H as [| r rs Hr Hrs]; subst. cbn in Hr. cbn.
  rewrite Hr. apply IH, Hrs.
Qed.

(** A row written by [save_settings] is read back as the value it was
    written from. *)
Lemma read_setting_written (o : Attrs.t) (key : string) (v : PyValue) :
  hasattr o key = true -> parsed v ->
  Storage.read_setting o (key, py_str v) = setattr o key v.
Proof.
  intros Hk Hv. unfold Storage.read_setting. rewrite Hk.
  destruct v as [[|] | s]; [reflexivity | reflexivity |].
  cbn in Hv. cbn [py_str]. rewrite Hv. reflexivity.
Qed.

Lemma filter_all {A : Type} (p : A -> bool) (l : list A) :
  forallb p l = true -> filter p l = l.
Proof.
  induction l as [| x l IH]; cbn; [reflexivity |].
  intros H. apply andb_true_iff in H. destruct H as [Hx Hl].
  rewrite Hx, IH by exact Hl. reflexivity.
Qed.

(** Replacing the row of a key that the rows written last do not have. *)
Lemma insert_or_replace_snoc (key value : string)
    (rows tail : list (string * string)) :
  forallb (fun r => negb (String.eqb (fst r) key)) tail = true ->
  Storage.insert_or_replace key value (rows ++ tail) =
  filter (fun r => negb (String.eqb (fst r) key)) rows
  ++ (tail ++ [(key, value)]).
Proof.
  intros H. unfold Storage.insert_or_replace.
  rewrite filter_app, (filter_all _ tail H), app_assoc. reflexivity.
Qed.

Lemma save_settings_unfold (a b c d e f : PyValue) (db : Database.t) :
  Database.settings (Storage.save_settings (Attrs.Build_t a b c d e f) db) =
  Storage.insert_or_replace "log_breaks" (py_str f)
    (Storage.insert_or_replace "notification_enabled" (py_str e)
       (Storage.insert_or_replace "sound_enabled" (py_str d)
          (Storage.insert_or_replace "keep_screen_awake" (py_str c)
             (Storage.insert_or_replace "auto_start_focus" (py_str b)
                (Storage.insert_or_replace "auto_start_break" (py_str a)
                   (Database.settings db)))))).
Proof. reflexivity. Qed.

Lemma save_settings_table (o : Attrs.t) (db : Database.t) :
  exists rest,
    Forall (fun r => hasattr o (fst r) = false) rest /\
    Database.settings (Storage.save_settings o db) =
    rest ++ [ ("auto_start_break"%string, py_str (Attrs.auto_start_break o));
              ("auto_start_focus"%string, py_str (Attrs.auto_start_focus o));
              ("keep_screen_awake"%string, py_str (Attrs.keep_screen_awake o));
              ("sound_enabled"%string, py_str (Attrs.sound_enabled o));
              ("notification_enabled"%string,
               py_str (Attrs.notification_enabled o));
              ("log_breaks"%string, py_str (Attrs.log_breaks o)) ].
Proof.
  destruct o as [a b c d e f]. destruct db as [g gs s ss tbl].
  pose (drop := fun (k : string) (l : list (string * string)) =>
                  filter (fun r => negb (String.eqb (fst r) k)) l).
  exists (drop "log_breaks"%string
            (drop "notification_enabled"%string
               (drop "sound_enabled"%string
                  (drop "keep_screen_awake"%string
                     (drop "auto_start_focus"%string
                        (drop "auto_start_break"%string tbl)))))).
  subst drop. cbv beta. split; cycle 1.
  - rewrite save_settings_unfold. cbn [Database.settings].
    unfold Storage.insert_or_replace at 6.
    rewrite !insert_or_replace_snoc by reflexivity.
    cbn [app]. reflexivity.
  - apply Forall_forall. intros r Hin.
    repeat (apply filter_In in Hin; destruct Hin as [Hin ?]).
    repeat match goal with
           | H : negb _ = true |- _ => apply negb_true_iff in H
           end.
    unfold hasattr, getattr.
    repeat match goal with
           | H : String.eqb _ _ = false |- _ => rewrite H; clear H
           end.
    reflexivity.
Qed.

Lemma save_then_get (o : Attrs.t) (db : Database.t) :
  all_parsed o -> Storage.get_settings (Storage.save_settings o db) = o.
Proof.
  intros Hp. destruct (save_settings_table o db) as [rest [Hrest Htbl]].
  unfold Storage.get_settings. rewrite Htbl, fold_left_app.
  assert (Hskip : fold_left Storage.read_setting rest
                    (of_flags default_settings)
                  = of_flags default_settings).
  { apply read_setting_skips. eapply Forall_impl; [| exact Hrest].
    intros r Hr. cbv beta in Hr. rewrite <- Hr. apply hasattr_any. }
  rewrite Hskip. clear Hskip Hrest Htbl.
  destruct o as [a b c d e f]. destruct Hp as [Ha [Hb [Hc [Hd [He Hf]]]]].
  cbn in Ha, Hb, Hc, Hd, He, Hf. cbn [fold_left Attrs.auto_start_break
    Attrs.auto_start_focus Attrs.keep_screen_awake Attrs.sound_enabled
    Attrs.notification_enabled Attrs.log_breaks].
  rewrite !read_setting_written by (assumption || reflexivity).
  reflexivity.
Qed.

Lemma save_settings_rest (o : Attrs.t) (db : Database.t) :
  Database.groups (Storage.save_settings o db) = Database.groups db /\
  Database.groups_seq (Storage.save_settings o db) = Database.groups_seq db /\
  Database.sessions (Storage.save_settings o db) = Database.sessions db /\
  Database.sessions_seq (Storage.save_settings o db)
  = Database.sessions_seq db.
Proof.
  destruct o as [a b c d e f]. repeat split; reflexivity.
Qed.

(** X16.  What [save_settings] writes, [get_settings] reads back: an
    object whose attributes are booleans, or texts other than [true] and
    [false] in any case, comes back as it was saved, whatever the table
    held before; the saving touches neither groups nor sessions. *)
Theorem settings_round_trip (o : Attrs.t) (db : Database.t) :
  plain_keys db -> all_parsed o ->
  Storage.get_settings (Storage.save_settings o db) = o /\
  Database.groups (Storage.save_settings o db) = Database.groups db /\
  Database.sessions (Storage.save_settings o db) = Database.sessions db.
Proof.
  intros _ Hp. split; [apply save_then_get, Hp |].
  destruct (save_settings_rest o db) as [Hg [_ [Hs _]]]. tauto.
Qed.

(** X17.  The two check boxes of the timer page change the two automatic
    starts and leave the four other settings as [get_settings] gives
    them. *)
Theorem options_changed_keeps_the_rest (auto_break auto_focus : bool)
    (db : Database.t) :
  plain_keys db ->
  let o := Storage.get_settings db in
  let o' := Storage.get_settings (_on_options_changed auto_break auto_focus db) in
  Attrs.auto_start_break o' = PyBool auto_break /\
  Attrs.auto_start_focus o' = PyBool auto_focus /\
  Attrs.keep_screen_awake o' = Attrs.keep_screen_awake o /\
  Attrs.sound_enabled o' = Attrs.sound_enabled o /\
  Attrs.notification_enabled o' = Attrs.notification_enabled o /\
  Attrs.log_breaks o' = Attrs.log_breaks o.
Proof.
  intros _ o o'. subst o'. unfold _on_options_changed.
  rewrite save_then_get.
  - subst o. destruct (Storage.get_settings db) as [a b c d e f].
    repeat split; reflexivity.
  - apply setattr_parsed; [| exact I].
    apply setattr_parsed; [| exact I]. apply get_settings_parsed.
Qed.

(** ** Sessions *)

Lemma row_of_created_session (s : Session) (i : Z) :
  Storage._row_to_session
    {| SessionRow.id := i;
       SessionRow.group_id := group_id s;
       SessionRow.start_ts := start_ts s;
       SessionRow.end_ts := end_ts s;
       SessionRow.planned_sec := planned_seconds s;
       SessionRow.actual_sec := actual_seconds s;
       SessionRow.status := status s;
       SessionRow.note := note s;
       SessionRow.is_break := if is_break s then 1 else 0;
       SessionRow.created_at := created_at s |}
  = with_id (Some i) s.
Proof.
  destruct s as [i0 g st en pl ac stat nt cr br].
  unfold Storage._row_to_session, with_id. cbn. destruct br; reflexivity.
Qed.

Lemma create_session_fresh (s : Session) (db : Database.t) :
  ids_fresh db -> ids_fresh (snd (Storage.create_session s db)).
Proof.
  intros [Hg [Hgs [Hs Hss]]]. unfold ids_fresh. cbn.
  split; [exact Hg |]. split; [exact Hgs |]. split.
  - apply NoDup_snoc_key with (n := Database.sessions_seq db);
      [exact Hs | exact Hss | cbn; lia].
  - apply Forall_app. split.
    + eapply Forall_impl; [| exact Hss]. intros r Hr. cbn in Hr. lia.
    + constructor; [cbn; lia | constructor].
Qed.

Lemma create_session_get (s : Session) (db : Database.t) :
  ids_fresh db ->
  Storage.get_session (fst (Storage.create_session s db))
    (snd (Storage.create_session s db))
  = Some (with_id (Some (Database.sessions_seq db + 1)) s).
Proof.
  intros [_ [_ [_ Hss]]]. unfold Storage.get_session. cbn.
  rewrite (find_app_key SessionRow.id).
  rewrite (find_key_above SessionRow.id (Database.sessions_seq db))
    by (exact Hss || lia).
  cbn. rewrite Z.eqb_refl. rewrite row_of_created_session. reflexivity.
Qed.

Lemma create_session_others (s : Session) (db : Database.t) (j : Z) :
  j <> Database.sessions_seq db + 1 ->
  Storage.get_session j (snd (Storage.create_session s db))
  = Storage.get_session j db.
Proof.
  intros Hj. unfold Storage.get_session. cbn.
  rewrite (find_app_key SessionRow.id).
  destruct (find (fun r => SessionRow.id r =? j) (Database.sessions db));
    [reflexivity |].
  cbn. destruct (Z.eqb_spec (Database.sessions_seq db + 1) j); [lia |].
  reflexivity.
Qed.


(** Sums of the statistics. *)
Lemma fold_add_from (l : list Z) (a : Z) :
  fold_left Z.add l a = a + fold_left Z.add l 0.
Proof.
  revert a. induction l as [| x l IH]; intros a; cbn; [lia |].
  rewrite (IH (a + x)), (IH x). lia.
Qed.

Lemma total_cons (since : Z) (g : option Z) (r : SessionRow.t)
    (rows : list SessionRow.t) (db : Database.t) :
  Storage._get_total_seconds_since since g
    (Storage.with_sessions (r :: rows) db)
  = (if (since <=? SessionRow.start_ts r)
        && (SessionRow.is_break r =? 0)
        && match g with
           | Some g => SessionRow.group_id r =? g
           | None => true
           end
     then SessionRow.actual_sec r else 0)
    + Storage._get_total_seconds_since since g
        (Storage.with_sessions rows db).
Proof.
  unfold Storage._get_total_seconds_since. cbn [Database.sessions
    Storage.with_sessions filter].
  destruct ((since <=? SessionRow.start_ts r)
            && (SessionRow.is_break r =? 0)
            && match g with
               | Some g => SessionRow.group_id r =? g
               | None => true
               end).
  - cbn [map fold_left]. rewrite fold_add_from. lia.
  - lia.
Qed.

Lemma total_of_sessions (since : Z) (g : option Z) (db : Database.t) :
  Storage._get_total_seconds_since since g db
  = Storage._get_total_seconds_since since g
      (Storage.with_sessions (Database.sessions db) db).
Proof. reflexivity. Qed.

Lemma total_with_groups (since : Z) (g : option Z)
    (rows : list GroupRow.t) (db : Database.t) :
  Storage._get_total_seconds_since since g (Storage.with_groups rows db)
  = Storage._get_total_seconds_since since g db.
Proof. reflexivity. Qed.

Lemma total_without_group (since g : Z) (rows : list SessionRow.t)
    (db : Database.t) :
  Storage._get_total_seconds_since since None
    (Storage.with_sessions
       (filter (fun s => negb (SessionRow.group_id s =? g)) rows) db)
  = Storage._get_total_seconds_since since None
      (Storage.with_sessions rows db)
    - Storage._get_total_seconds_since since (Some g)
        (Storage.with_sessions rows db).
Proof.
  induction rows as [| r rows IH].
  - reflexivity.
  - rewrite !total_cons. cbn [filter].
    destruct (SessionRow.group_id r =? g); cbn [negb].
    + rewrite IH. rewrite !andb_true_r.
      destruct ((since <=? SessionRow.start_ts r)
                && (SessionRow.is_break r =? 0)); lia.
    + rewrite total_cons, IH. rewrite !andb_false_r. lia.
Qed.

(** ** Groups *)

Lemma post_init_fields (g : Group.t) :
  Group.id (Group.__post_init__ g) = Group.id g /\
  Group.name (Group.__post_init__ g) = Group.name g /\
  Group.color (Group.__post_init__ g) = Group.color g /\
  Group.created_at (Group.__post_init__ g) = Group.created_at g /\
  Group.default_focus_minutes (Group.__post_init__ g)
  = Z.max 1 (Group.default_focus_minutes g) /\
  Group.default_break_minutes (Group.__post_init__ g)
  = Z.max 1 (Group.default_break_minutes g).
Proof.
  destruct g as [i n f b c t]. unfold Group.__post_init__. cbn.
  destruct (Z.ltb_spec f 1); cbn; destruct (Z.ltb_spec b 1); cbn;
    repeat split; lia.
Qed.

(** X19.  Whatever minutes a row of the groups table holds, the group
    [get_group] builds from it has at least one minute of focus and one of
    break - the minutes of the row where those are at least 1 - and
    carries the id asked for. *)
Theorem get_group_minutes_at_least_one (i : Z) (db : Database.t)
    (g : Group.t) :
  Storage.get_group i db = Some g ->
  Group.id g = Some i /\
  1 <= Group.default_focus_minutes g /\
  1 <= Group.default_break_minutes g /\
  exists row,
    In row (Database.groups db) /\ GroupRow.id row = i /\
    Group.name g = GroupRow.name row /\
    Group.default_focus_minutes g = Z.max 1 (GroupRow.default_focus row) /\
    Group.default_break_minutes g = Z.max 1 (GroupRow.default_break row).
Proof.
  unfold Storage.get_group.
  destruct (find (fun r => GroupRow.id r =? i) (Database.groups db))
    as [row |] eqn:F; [| discriminate].
  intros E. injection E as E. subst g.
  apply (find_key_sound GroupRow.id) in F. destruct F as [Hid Hin].
  unfold Storage._row_to_group, Group.make.
  match goal with
  | |- context [Group.__post_init__ ?g] =>
    destruct (post_init_fields g) as [H1 [H2 [H3 [H4 [H5 H6]]]]]
  end.
  cbn in H1, H2, H3, H4, H5, H6.
  rewrite H1, H5, H6. split; [congruence |]. split; [lia |].
  split; [lia |]. exists row. rewrite H2. tauto.
Qed.

Lemma get_session_of_row (i : Z) (db : Database.t) :
  Storage.get_session i db
  = option_map Storage._row_to_session
      (find (fun r => SessionRow.id r =? i) (Database.sessions db)).
Proof.
  unfold Storage.get_session.
  destruct (find _ (Database.sessions db)); reflexivity.
Qed.

Lemma get_group_of_row (i : Z) (db : Database.t) :
  Storage.get_group i db
  = option_map Storage._row_to_group
      (find (fun r => GroupRow.id r =? i) (Database.groups db)).
Proof.
  unfold Storage.get_group.
  destruct (find _ (Database.groups db)); reflexivity.
Qed.

Lemma find_other_key_filter {A : Type} (key : A -> Z) (g j : Z)
    (l : list A) :
  j <> g ->
  find (fun r => key r =? j) (filter (fun r => negb (key r =? g)) l)
  = find (fun r => key r =? j) l.
Proof.
  intros Hj. induction l as [| x l IH]; cbn; [reflexivity |].
  destruct (Z.eqb_spec (key x) g) as [E | E]; cbn.
  - destruct (Z.eqb_spec (key x) j) as [E' | E']; [lia | exact IH].
  - destruct (key x =? j); [reflexivity | exact IH].
Qed.

Lemma find_same_key_filter {A : Type} (key : A -> Z) (g : Z) (l : list A) :
  find (fun r => key r =? g) (filter (fun r => negb (key r =? g)) l) = None.
Proof.
  induction l as [| x l IH]; cbn; [reflexivity |].
  destruct (key x =? g) eqn:E; cbn; [exact IH |].
  rewrite E. exact IH.
Qed.

(** X20.  [delete_group] answers whether there was such a group; after
    it the group is gone and so is every session of it, the other groups
    and the sessions of the other groups read as before, and the total of
    focused seconds over all groups has gone down by the total of that
    group. *)
Theorem delete_group_takes_its_sessions (g : Z) (db : Database.t) :
  ids_fresh db ->
  let answer := fst (Storage.delete_group g db) in
  let db' := snd (Storage.delete_group g db) in
  (answer = true <-> Storage.get_group g db <> None) /\
  Storage.get_group g db' = None /\
  (forall j, j <> g -> Storage.get_group j db' = Storage.get_group j db) /\
  (forall i,
      Storage.get_session i db' =
      match Storage.get_session i db with
      | Some s => if group_id s =? g then None else Some s
      | None => None
      end) /\
  (forall since,
      Storage._get_total_seconds_since since None db' =
      Storage._get_total_seconds_since since None db
      - Storage._get_total_seconds_since since (Some g) db) /\
  ids_fresh db'.
Proof.
  intros [Hg [Hgs [Hs Hss]]] answer db'. subst answer db'.
  unfold Storage.delete_group. cbn [fst snd].
  split; [| split; [| split; [| split; [| split]]]].
  - cbn [Storage.with_sessions Database.groups].
    rewrite (existsb_find_key GroupRow.id), get_group_of_row.
    destruct (find _ (Database.groups db)); cbn; split; congruence.
  - rewrite get_group_of_row. cbn [Storage.with_groups Database.groups
      Storage.with_sessions].
    rewrite (find_same_key_filter GroupRow.id). reflexivity.
  - intros j Hj. rewrite !get_group_of_row.
    cbn [Storage.with_groups Database.groups Storage.with_sessions].
    rewrite (find_other_key_filter GroupRow.id) by exact Hj. reflexivity.
  - intros i. rewrite !get_session_of_row.
    cbn [Storage.with_groups Database.sessions Storage.with_sessions].
    rewrite (find_filter_key SessionRow.id) by exact Hs.
    destruct (find _ (Database.sessions db)) as [row |]; [| reflexivity].
    cbn. destruct (SessionRow.group_id row =? g); reflexivity.
  - intros since. rewrite total_with_groups.
    rewrite (total_of_sessions since None db),
      (total_of_sessions since (Some g) db).
    apply total_without_group.
  - unfold ids_fresh.
    cbn [Storage.with_groups Database.sessions Storage.with_sessions
         Database.groups Database.groups_seq Database.sessions_seq].
    split; [apply (NoDup_filter_key GroupRow.id), Hg |].
    split; [apply Forall_filter, Hgs |].
    split; [apply (NoDup_filter_key SessionRow.id), Hs |].
    apply Forall_filter, Hss.
Qed.

Lemma name_taken_snoc (name : string) (rows : list GroupRow.t)
    (row : GroupRow.t) :
  GroupRow.name row = name ->
  Storage.name_taken name (rows ++ [row]) = true.
Proof.
  intros E. unfold Storage.name_taken. rewrite existsb_app. cbn.
  rewrite E, String.eqb_refl. apply orb_true_iff. right. reflexivity.
Qed.

(** X21.  A group whose name no row has is inserted under a new id, and
    [get_group] reads it back under that id with its name, colour and
    creation time, and its minutes raised to 1 where they were below; the
    other groups read as before; creating a group of the same name again
    raises [IntegrityError] and leaves the database as it is. *)
Theorem created_group_reads_back (grp : Group.t) (db : Database.t) :
  ids_fresh db ->
  Storage.name_taken (Group.name grp) (Database.groups db) = false ->
  exists i db',
    Storage.create_group grp db = (Returned i, db') /\
    i = Database.groups_seq db + 1 /\
    Storage.get_group i db'
    = Some (Group.make (Some i) (Group.name grp)
              (Group.default_focus_minutes grp)
              (Group.default_break_minutes grp) (Group.color grp)
              (Group.created_at grp)) /\
    (forall j, j <> i -> Storage.get_group j db' = Storage.get_group j db) /\
    Storage.create_group grp db' = (IntegrityError, db') /\
    ids_fresh db'.
Proof.
  intros [Hg [Hgs [Hs Hss]]] Hfree.
  unfold Storage.create_group. rewrite Hfree.
  eexists. eexists. split; [reflexivity |]. split; [reflexivity |].
  split; [| split; [| split]].
  - rewrite get_group_of_row. cbn [Storage.insert_group_row Database.groups
      Database.groups_seq].
    rewrite (find_app_key GroupRow.id).
    rewrite (find_key_above GroupRow.id (Database.groups_seq db))
      by (exact Hgs || lia).
    cbn. rewrite Z.eqb_refl. reflexivity.
  - intros j Hj. rewrite !get_group_of_row.
    cbn [Storage.insert_group_row Database.groups Database.groups_seq] in *.
    rewrite (find_app_key GroupRow.id).
    destruct (find _ (Database.groups db)); [reflexivity |].
    cbn. destruct (Z.eqb_spec (Database.groups_seq db + 1) j); [lia |].
    reflexivity.
  - cbn [Storage.insert_group_row Database.groups].
    rewrite name_taken_snoc by reflexivity. reflexivity.
  - unfold ids_fresh.
    cbn [Storage.insert_group_row Database.groups Database.groups_seq
         Database.sessions Database.sessions_seq].
    split; [| split; [| split; [exact Hs | exact Hss]]].
    + apply NoDup_snoc_key with (n := Database.groups_seq db);
        [exact Hg | exact Hgs | cbn; lia].
    + apply Forall_app. split.
      * eapply Forall_impl; [| exact Hgs]. intros r Hr. cbn in Hr. lia.
      * constructor; [cbn; lia | constructor].
Qed.

Lemma group_row_updated (grp : Group.t) (i : Z) (row : GroupRow.t) :
  GroupRow.id row = i ->
  Storage._row_to_group
    {| GroupRow.id := GroupRow.id row;
       GroupRow.name := Group.name grp;
       GroupRow.default_focus := Group.default_focus_minutes grp;
       GroupRow.default_break := Group.default_break_minutes grp;
       GroupRow.color := Group.color grp;
       GroupRow.created_at := GroupRow.created_at row |}
  = Group.make (Some i) (Group.name grp) (Group.default_focus_minutes grp)
      (Group.default_break_minutes grp) (Group.color grp)
      (Group.created_at (Storage._row_to_group row)).
Proof.
  intros E. unfold Storage._row_to_group at 1. cbn. rewrite E.
  unfold Storage._row_to_group, Group.make.
  match goal with
  | |- context [Group.created_at (Group.__post_init__ ?g)] =>
    destruct (post_init_fields g) as [_ [_ [_ [H _]]]]; rewrite H
  end.
  reflexivity.
Qed.

(** X22.  [update_group] answers [False] and changes nothing for a group
    that is not in the table; it raises [IntegrityError] and changes
    nothing if another group has the new name; otherwise [get_group]
    reads the new name, minutes and colour back under the same id, with
    the creation time the group had, and every other group as before. *)
Theorem updated_group_reads_back (grp : Group.t) (i : Z) (db : Database.t) :
  ids_fresh db ->
  Group.id grp = Some i ->
  match Storage.update_group grp db with
  | (Returned true, db') =>
    exists old,
      Storage.get_group i db = Some old /\
      Storage.get_group i db'
      = Some (Group.make (Some i) (Group.name grp)
                (Group.default_focus_minutes grp)
                (Group.default_break_minutes grp) (Group.color grp)
                (Group.created_at old)) /\
      (forall j, j <> i ->
                 Storage.get_group j db' = Storage.get_group j db) /\
      Database.sessions db' = Database.sessions db /\
      ids_fresh db'
  | (Returned false, db') => Storage.get_group i db = None /\ db' = db
  | (IntegrityError, db') =>
    db' = db /\
    exists other,
      In other (Database.groups db) /\ GroupRow.id other <> i /\
      GroupRow.name other = Group.name grp
  end.
Proof.
  intros [Hg [Hgs [Hs Hss]]] Hid. unfold Storage.update_group. rewrite Hid.
  destruct (existsb (fun r => GroupRow.id r =? i) (Database.groups db))
    eqn:Hex.
  - destruct (Storage.name_taken _ _) eqn:Hname.
    + split; [reflexivity |].
      unfold Storage.name_taken in Hname. apply existsb_exists in Hname.
      destruct Hname as [other [Hin Hn]]. apply filter_In in Hin.
      destruct Hin as [Hin Hne]. exists other.
      split; [exact Hin |]. split.
      * apply negb_true_iff in Hne. apply Z.eqb_neq, Hne.
      * apply String.eqb_eq, Hn.
    + assert (Hfind : find (fun r => GroupRow.id r =? i) (Database.groups db)
                      <> None)
        by (apply (existsb_find_key GroupRow.id), Hex).
      destruct (find (fun r => GroupRow.id r =? i) (Database.groups db))
        as [row |] eqn:F; [| congruence].
      exists (Storage._row_to_group row).
      split; [rewrite get_group_of_row, F; reflexivity |].
      split; [| split; [| split; [reflexivity |]]].
      * rewrite get_group_of_row.
        cbn [Storage.with_groups Database.groups].
        rewrite (find_map_key GroupRow.id)
          by (intros r; destruct (GroupRow.id r =? i); reflexivity).
        rewrite F. cbn [option_map].
        apply (find_key_sound GroupRow.id) in F. destruct F as [E _].
        rewrite <- E at 1. rewrite Z.eqb_refl.
        rewrite (group_row_updated grp i row E). reflexivity.
      * intros j Hj. rewrite !get_group_of_row.
        cbn [Storage.with_groups Database.groups].
        rewrite (find_map_key GroupRow.id)
          by (intros r; destruct (GroupRow.id r =? i); reflexivity).
        destruct (find (fun r => GroupRow.id r =? j) (Database.groups db))
          as [r |] eqn:Fj; [| reflexivity].
        apply (find_key_sound GroupRow.id) in Fj. destruct Fj as [Ej _].
        cbn [option_map]. destruct (Z.eqb_spec (GroupRow.id r) i); [lia |].
        reflexivity.
      * unfold ids_fresh.
        cbn [Storage.with_groups Database.groups Database.groups_seq
             Database.sessions Database.sessions_seq].
        assert (Hmap : forall l : list GroupRow.t,
                   map GroupRow.id
                     (map (fun r =>
                             if GroupRow.id r =? i
                             then {| GroupRow.id := GroupRow.id r;
                                     GroupRow.name := Group.name grp;
                                     GroupRow.default_focus :=
                                       Group.default_focus_minutes grp;
                                     GroupRow.default_break :=
                                       Group.default_break_minutes grp;
                                     GroupRow.color := Group.color grp;
                                     GroupRow.created_at :=
                                       GroupRow.created_at r |}
                             else r) l)
                   = map GroupRow.id l).
        { intros l. rewrite map_map. apply map_ext. intros r.
          destruct (GroupRow.id r =? i); reflexivity. }
        split; [rewrite Hmap; exact Hg |].
        split; [| split; [exact Hs | exact Hss]].
        apply Forall_map. eapply Forall_impl; [| exact Hgs].
        intros r Hr. cbv beta in Hr.
        destruct (GroupRow.id r =? i); exact Hr.
  - split; [| reflexivity]. rewrite get_group_of_row.
    destruct (find (fun r => GroupRow.id r =? i) (Database.groups db))
      eqn:F; [| reflexivity].
    assert (H : existsb (fun r => GroupRow.id r =? i) (Database.groups db)
                = true)
      by (apply (existsb_find_key GroupRow.id); congruence).
    congruence.
Qed.

(** X23.  Opening the storage gives a groups table that is not empty: an
    empty one gets the four default groups, with the ids after the
    counter and the time of the opening; a table with a group in it, and
    the sessions and settings in any case, are left as they are, so
    opening again changes nothing. *)
Theorem init_database_fills_groups_once (now now' : Z) (db : Database.t) :
  let db' := Storage._init_database now db in
  Database.groups db' <> [] /\
  (Database.groups db <> [] -> db' = db) /\
  (Database.groups db = [] ->
   map GroupRow.name (Database.groups db')
   = ["Study"; "Work"; "Coding"; "Reading"]%string /\
   map GroupRow.id (Database.groups db')
   = [Database.groups_seq db + 1; Database.groups_seq db + 2;
      Database.groups_seq db + 3; Database.groups_seq db + 4] /\
   Forall (fun r => GroupRow.created_at r = now) (Database.groups db')) /\
  Database.sessions db' = Database.sessions db /\
  Database.settings db' = Database.settings db /\
  Storage._init_database now' db' = db'.
Proof.
  intros db'. subst db'. destruct db as [g gs s ss tbl].
  destruct g as [| r g].
  - cbn. split; [discriminate |]. split; [congruence |].
    split; [| repeat split; reflexivity].
    intros _. split; [reflexivity |]. split.
    + repeat (apply f_equal2; [lia |]). reflexivity.
    + repeat constructor.
  - cbn. split; [discriminate |]. split; [reflexivity |].
    split; [discriminate |]. repeat split; reflexivity.
Qed.

Lemma row_with_note (note : string) (row : SessionRow.t) :
  Storage._row_to_session
    {| SessionRow.id := SessionRow.id row;
       SessionRow.group_id := SessionRow.group_id row;
       SessionRow.start_ts := SessionRow.start_ts row;
       SessionRow.end_ts := SessionRow.end_ts row;
       SessionRow.planned_sec := SessionRow.planned_sec row;
       SessionRow.actual_sec := SessionRow.actual_sec row;
       SessionRow.status := SessionRow.status row;
       SessionRow.note := Some note;
       SessionRow.is_break := SessionRow.is_break row;
       SessionRow.created_at := SessionRow.created_at row |}
  = with_note (Some note) (Storage._row_to_session row).
Proof. reflexivity. Qed.

(** X24.  [update_session_note] answers whether there is a session of
    that id; the session then reads back with the new note and nothing
    else changed, every other session reads as before, and no total of
    the statistics moves. *)
Theorem note_update_changes_only_the_note (i : Z) (note : string)
    (db : Database.t) :
  let answer := fst (Storage.update_session_note i note db) in
  let db' := snd (Storage.update_session_note i note db) in
  (answer = true <-> Storage.get_session i db <> None) /\
  Storage.get_session i db'
  = option_map (with_note (Some note)) (Storage.get_session i db) /\
  (forall j, j <> i ->
             Storage.get_session j db' = Storage.get_session j db) /\
  (forall since g,
      Storage._get_total_seconds_since since g db'
      = Storage._get_total_seconds_since since g db) /\
  Database.groups db' = Database.groups db.
Proof.
  intros answer db'. subst answer db'.
  unfold Storage.update_session_note. cbn [fst snd].
  split; [| split; [| split; [| split; [| reflexivity]]]].
  - rewrite (existsb_find_key SessionRow.id), get_session_of_row.
    destruct (find _ (Database.sessions db)); cbn; split; congruence.
  - rewrite !get_session_of_row.
    cbn [Storage.with_sessions Database.sessions].
    rewrite (find_map_key SessionRow.id)
      by (intros r; destruct (SessionRow.id r =? i); reflexivity).
    destruct (find (fun r => SessionRow.id r =? i) (Database.sessions db))
      as [row |] eqn:F; [| reflexivity].
    apply (find_key_sound SessionRow.id) in F. destruct F as [E _].
    cbn [option_map]. rewrite <- E at 1. rewrite Z.eqb_refl.
    rewrite row_with_note. reflexivity.
  - intros j Hj. rewrite !get_session_of_row.
    cbn [Storage.with_sessions Database.sessions].
    rewrite (find_map_key SessionRow.id)
      by (intros r; destruct (SessionRow.id r =? i); reflexivity).
    destruct (find (fun r => SessionRow.id r =? j) (Database.sessions db))
      as [row |] eqn:F; [| reflexivity].
    apply (find_key_sound SessionRow.id) in F. destruct F as [E _].
    cbn [option_map]. destruct (Z.eqb_spec (SessionRow.id row) i); [lia |].
    reflexivity.
  - intros since g. rewrite (total_of_sessions since g db).
    induction (Database.sessions db) as [| r rows IH]; [reflexivity |].
    cbn [map]. rewrite !total_cons.
    unfold Storage.with_sessions in IH. cbn [Database.sessions] in IH.
    unfold Storage.with_sessions. cbn [Database.sessions].
    unfold Storage.with_sessions in *.
    rewrite <- IH.
    destruct (SessionRow.id r =? i); reflexivity.
Qed.

(** * The engine over the storage *)

Section Ledger.

Variable clk : nat -> Z.

Lemma logged_exec (cmd : Command) (w : World) :
  logged (lastrowid w) (trace w) ->
  logged (lastrowid (exec clk cmd w)) (trace (exec clk cmd w)).
Proof.
  intros H. destruct_world w. cbn in H.
  destruct cmd;
    match goal with st : TimerState |- _ => destruct st end;
    engine_run; split_ifs; try assumption.
  all: repeat
         match goal with
         | |- logged _ (_ ++ [tick _]) => apply logged_tick
         | |- logged _ (_ ++ [phase_changed _ _]) => apply logged_phase
         | |- logged _ ((?t ++ [create_session_row ?s (?n + 1)])
                          ++ [session_completed _]) =>
           apply (logged_save n t s)
         end; assumption.
Qed.

Lemma logged_run (cmds : list Command) (w : World) :
  logged (lastrowid w) (trace w) ->
  logged (lastrowid (run clk cmds w)) (trace (run clk cmds w)).
Proof.
  revert w. induction cmds as [| cmd cmds IH]; intros w H.
  - exact H.
  - change (run clk (cmd :: cmds) w) with (run clk cmds (exec clk cmd w)).
    apply IH, logged_exec, H.
Qed.

End Ledger.

Lemma signalled_snoc (t : list Effect) (e : Effect) :
  signalled (t ++ [e]) =
  signalled t ++ match e with session_completed s => [s] | _ => [] end.
Proof.
  induction t as [| x t IH]; [destruct e; reflexivity |].
  destruct x; cbn; rewrite IH; reflexivity.
Qed.

Lemma signalled_In (t : list Effect) (s : Session) :
  In (session_completed s) t <-> In s (signalled t).
Proof.
  induction t as [| x t IH]; [reflexivity |].
  destruct x; cbn; rewrite <- IH; split;
    try (intros [H | H]; [discriminate H | exact H]);
    try (intros H; right; exact H).
  - intros [H | H]; [left; congruence | right; exact H].
  - intros [H | H]; [left; congruence | right; exact H].
Qed.

Lemma stored_snoc (t : list Effect) (e : Effect) (db : Database.t) :
  stored (t ++ [e]) db = store_step (stored t db) e.
Proof. unfold stored. rewrite fold_left_app. reflexivity. Qed.

Lemma get_session_id_bound (i : Z) (db : Database.t) (s : Session) :
  ids_fresh db -> Storage.get_session i db = Some s ->
  i <= Database.sessions_seq db.
Proof.
  intros [_ [_ [_ Hss]]]. rewrite get_session_of_row.
  destruct (find (fun r => SessionRow.id r =? i) (Database.sessions db))
    as [row |] eqn:F; [| discriminate].
  intros _. apply (find_key_sound SessionRow.id) in F.
  destruct F as [E Hin]. rewrite Forall_forall in Hss.
  specialize (Hss row Hin). cbn in Hss. lia.
Qed.

Lemma logged_stored (n : Z) (t : list Effect) :
  logged n t ->
  exists db,
    stored t Database.empty = Some db /\
    Database.sessions_seq db = n /\
    ids_fresh db /\
    map Storage._row_to_session (Database.sessions db) = signalled t /\
    forall s, In s (signalled t) ->
              exists i, id s = Some i /\ Storage.get_session i db = Some s.
Proof.
  induction 1 as [| n t c _ IH | n t o o' _ IH | n t s _ IH].
  - exists Database.empty. split; [reflexivity |]. split; [reflexivity |].
    split; [repeat split; constructor |]. split; [reflexivity |].
    intros s [].
  - destruct IH as [db [Hst [Hn [Hf [Hm Hs]]]]]. exists db.
    rewrite stored_snoc, Hst, signalled_snoc, app_nil_r. tauto.
  - destruct IH as [db [Hst [Hn [Hf [Hm Hs]]]]]. exists db.
    rewrite stored_snoc, Hst, signalled_snoc, app_nil_r. tauto.
  - destruct IH as [db [Hst [Hn [Hf [Hm Hs]]]]].
    exists (snd (Storage.create_session s db)).
    rewrite !stored_snoc, Hst, !signalled_snoc, app_nil_r.
    split.
    { cbn [store_step]. destruct (Storage.create_session s db) as [i db']
        eqn:E.
      assert (Ei : i = n + 1)
        by (change i with (fst (i, db')); rewrite <- E; cbn; lia).
      rewrite Ei, Z.eqb_refl. reflexivity. }
    split; [cbn; lia |]. split; [apply create_session_fresh, Hf |].
    split.
    { cbn [Storage.create_session snd Database.sessions].
      rewrite map_app, Hm. cbn [map]. rewrite row_of_created_session, Hn.
      reflexivity. }
    intros s' Hin. apply in_app_iff in Hin. destruct Hin as [Hin | Hin].
    + destruct (Hs s' Hin) as [i [Hi Hget]]. exists i.
      split; [exact Hi |].
      rewrite create_session_others; [exact Hget |].
      pose proof (get_session_id_bound i db s' Hf Hget). lia.
    + destruct Hin as [E | []]. subst s'. exists (n + 1).
      split; [reflexivity |].
      pose proof (create_session_get s db Hf) as G.
      change (fst (Storage.create_session s db))
        with (Database.sessions_seq db + 1) in G.
      rewrite Hn in G. exact G.
Qed.

(** X25.  Whatever the commands and the clock, the inserts of the engine
    carry the ids the storage gives them; the sessions table they leave,
    read back row by row, is the list of the sessions the engine has
    announced with [session_completed], in that order; and every session
    so announced is what [get_session] answers for the id it carries. *)
Theorem announced_sessions_are_stored (clk : nat -> Z)
    (cmds : list Command) :
  let w := run clk cmds init_world in
  exists db,
    stored (trace w) Database.empty = Some db /\
    Database.sessions_seq db = lastrowid w /\
    map Storage._row_to_session (Database.sessions db)
    = signalled (trace w) /\
    forall s, In (session_completed s) (trace w) ->
              exists i, id s = Some i /\ Storage.get_session i db = Some s.
Proof.
  intros w.
  assert (H : logged (lastrowid w) (trace w))
    by (apply logged_run; constructor).
  destruct (logged_stored _ _ H) as [db [Hst [Hn [_ [Hm Hs]]]]].
  exists db. split; [exact Hst |]. split; [exact Hn |].
  split; [exact Hm |]. intros s Hin. apply Hs, signalled_In, Hin.
Qed.

(** * The main window *)

Section Window.

Variable clk : nat -> Z.
Variables has_tray awake_setting : bool.

Lemma window_after_snoc (t : list Effect) (e : Effect) :
  window_after has_tray awake_setting (t ++ [e])
  = window_hears has_tray (window_after has_tray awake_setting t) e.
Proof. unfold window_after. rewrite fold_left_app. reflexivity. Qed.



End Window.


(** * A focus that runs into its break *)

Section MoreRuns.

Variable clk : nat -> Z.
Hypothesis mono : clock_monotone clk.


End MoreRuns.



(** * The timer page *)

Section Page.

Variable clk : nat -> Z.
Variable percent_text : Z -> Z -> string.

Lemma page_shows_exec (cmd : Command) (w : World) (p0 : TimerPage.t) :
  TimerPage.shows percent_text w
    (TimerPage.after percent_text (trace w) p0) ->
  TimerPage.shows percent_text (exec clk cmd w)
    (TimerPage.after percent_text (trace (exec clk cmd w)) p0).
Proof.
  intros H. destruct_world w. unfold TimerPage.shows, TimerPage.after in *.
  cbn -[format_remaining TimerPage.progress_text] in H.
  destruct cmd;
    match goal with st : TimerState |- _ => destruct st end;
    engine_run; split_ifs; try assumption.
  all: rewrite ?fold_left_app; cbn [fold_left].
  all: destruct (fold_left (TimerPage.hears percent_text) _ p0)
         as [a1 a2 a3 a4 a5 a6 a7 a8 a9 a10 a11 a12 a13 a14 a15 a16].
  all: cbn -[format_remaining TimerPage.progress_text] in H |- *.
  all: destruct H as (H1 & H2 & H3 & H4 & H5 & H6 & H7 & H8 & H9 & H10 & H11).
  all: subst.
  all: repeat match goal with t : TimerState |- _ => destruct t end.
  all: cbn -[format_remaining TimerPage.progress_text].
  all: repeat split; try reflexivity; try discriminate.
  all: try (apply H11; reflexivity).
Qed.

(** X28.  After any commands the timer page, following nothing but the
    [tick] and [phase_changed] signals, shows the engine as it is: the
    phase label names the state, the time label is [format_remaining] of
    the context, the progress label is empty exactly in Idle, Start Focus
    is enabled exactly in Idle, Pause and Stop exactly outside Idle, the
    pause button reads Resume exactly in Paused, Skip Break is visible
    exactly in a break, running or paused, and the category and preset
    boxes can be changed exactly in Idle. *)
Theorem timer_page_follows_engine (cmds : list Command) :
  let w := run clk cmds init_world in
  let c := context w in
  let p := TimerPage.after percent_text (trace w) TimerPage.make in
  let idle := TimerState_eqb (state c) IDLE in
  let paused := TimerState_eqb (state c) PAUSED in
  TimerPage.phase_label_text p = snd (TimerPage.phase_colors (state c)) /\
  TimerPage.time_label_text p = format_remaining c /\
  TimerPage.progress_label_text p
  = (if idle then ""%string else TimerPage.progress_text percent_text c) /\
  TimerPage.start_btn_enabled p = idle /\
  TimerPage.pause_btn_enabled p = negb idle /\
  TimerPage.stop_btn_enabled p = negb idle /\
  TimerPage.pause_btn_text p
  = (if paused then "Resume"%string else "Pause"%string) /\
  TimerPage.skip_break_btn_visible p
  = (TimerState_eqb (state c) BREAK
     || paused && match state_before_pause w with
                  | Some BREAK => true
                  | _ => false
                  end) /\
  TimerPage.group_combo_enabled p = idle /\
  TimerPage.preset_combo_enabled p = idle /\
  (idle = false ->
   TimerPage.focus_spin_enabled p = false /\
   TimerPage.break_spin_enabled p = false).
Proof.
  intros w c p idle paused. subst c p idle paused.
  change (TimerPage.shows percent_text w
            (TimerPage.after percent_text (trace w) TimerPage.make)).
  subst w.
  assert (H0 : TimerPage.shows percent_text init_world
                 (TimerPage.after percent_text (trace init_world)
                    TimerPage.make)).
  { unfold TimerPage.shows. cbn. repeat split; try reflexivity.
    all: discriminate. }
  revert H0. generalize init_world as w.
  induction cmds as [| cmd cmds IH]; intros w Hw.
  - exact Hw.
  - change (run clk (cmd :: cmds) w) with (run clk cmds (exec clk cmd w)).
    apply IH, page_shows_exec, Hw.
Qed.

End Page.

(** * Worked runs *)

Lemma guard_violations_are_noops_witness :
  execState (pause seconds_clock) init_world = init_world /\
  execState (resume seconds_clock) init_world = init_world /\
  execState (skip_break seconds_clock) init_world = init_world /\
  execState (stop seconds_clock) init_world = init_world.
Proof.
  destruct (guard_violations_are_noops seconds_clock init_world) as (Hp & Hr & Hk & Hs).
  split; [| split; [| split]].
  - apply Hp. reflexivity.
  - apply Hr. cbn. discriminate.
  - apply Hk. cbn. discriminate.
  - apply Hs. reflexivity.
Defined.


Lemma seconds_clock_monotone : clock_monotone seconds_clock.
Proof.
  intros i j Hij. unfold seconds_clock. lia.
Qed.


Lemma start_focus_interrupts_previous_witness :
  state (context in_focus) <> IDLE /\
  state (context (execState (start_focus seconds_clock 50 10 None) in_focus))
    = FOCUS.
Proof.
  assert (H : state (context in_focus) <> IDLE) by (cbn; discriminate).
  split; [exact H |].
  destruct (start_focus_interrupts_previous seconds_clock 50 10 None
              in_focus H) as (_ & _ & _ & _ & _ & _ & Hc).
  rewrite Hc. reflexivity.
Defined.

Lemma pause_resume_keeps_remaining_witness :
  running (context in_focus) = true /\
  remaining_seconds
    (context (execState (resume seconds_clock)
                (execState (pause seconds_clock) in_focus))) = 1500.
Proof.
  assert (H : running (context in_focus) = true) by reflexivity.
  split; [exact H |].
  destruct (pause_resume_keeps_remaining seconds_clock in_focus H)
    as (_ & Hrem & _).
  rewrite Hrem. reflexivity.
Defined.

Lemma category_persists_through_break_witness :
  current_group_id
    (context (run seconds_clock [CPause; CResume; CStartBreak; CTick]
                (exec seconds_clock (CStartFocus 25 5 (Some 4)) init_world)))
  = Some 4.
Proof.
  apply (category_persists_through_break seconds_clock 25 5 (Some 4)
           [CPause; CResume; CStartBreak; CTick] init_world).
  repeat constructor.
Defined.


(** C1. A break of 5 minutes started at 2500 runs out at the tick of 2800,
    with [log_breaks] and [auto_start_focus] set.  The specification asks
    for one record, completed, and one [session_completed]; the tick hands
    the same break to the storage twice, as completed under row 3 and as
    interrupted under row 4, each with its signal, before it restarts the
    focus with the minutes 25 and 5 and the category 3. *)
Theorem break_completion_persists_twice :
  state (context in_logged_break) = BREAK /\
  log_breaks (settings in_logged_break) = true /\
  auto_start_focus (settings in_logged_break) = true /\
  new_effects in_logged_break (exec clock_auto CTick in_logged_break) =
    [tick
       {| state := BREAK; remaining_seconds := 0; total_seconds := 300;
          current_group_id := Some 3; focus_minutes := 25; break_minutes := 5;
          session_start_ts := 2500; pause_start_ts := 0;
          total_paused_seconds := 0 |};
     create_session_row
       {| id := None; group_id := 3; start_ts := 2500; end_ts := 2800;
          planned_seconds := 300; actual_seconds := 300;
          status := "completed"; note := None; created_at := 2800;
          is_break := true |} 3;
     session_completed
       {| id := Some 3; group_id := 3; start_ts := 2500; end_ts := 2800;
          planned_seconds := 300; actual_seconds := 300;
          status := "completed"; note := None; created_at := 2800;
          is_break := true |};
     create_session_row
       {| id := None; group_id := 3; start_ts := 2500; end_ts := 2800;
          planned_seconds := 300; actual_seconds := 300;
          status := "interrupted"; note := None; created_at := 2800;
          is_break := true |} 4;
     session_completed
       {| id := Some 4; group_id := 3; start_ts := 2500; end_ts := 2800;
          planned_seconds := 300; actual_seconds := 300;
          status := "interrupted"; note := None; created_at := 2800;
          is_break := true |};
     phase_changed BREAK IDLE;
     tick
       {| state := IDLE; remaining_seconds := 0; total_seconds := 0;
          current_group_id := Some 3; focus_minutes := 25; break_minutes := 5;
          session_start_ts := 0; pause_start_ts := 0;
          total_paused_seconds := 0 |};
     phase_changed IDLE FOCUS;
     tick
       {| state := FOCUS; remaining_seconds := 1500; total_seconds := 1500;
          current_group_id := Some 3; focus_minutes := 25; break_minutes := 5;
          session_start_ts := 2800; pause_start_ts := 0;
          total_paused_seconds := 0 |}].
Proof.
  vm_compute. repeat split.
Qed.

(** C7. A focus of 25 minutes started at 1000 runs out at the tick of 2500,
    with [auto_start_break] off.  The specification asks for a [tick]
    after the [phase_changed] of the call; the call emits its only [tick]
    first, while the context is still in Focus, and ends on
    [phase_changed FOCUS IDLE]: no [tick] carries the idle context. *)
Theorem completion_to_idle_ends_without_tick :
  state (context in_plain_focus) = FOCUS /\
  state (context (exec clock_plain CTick in_plain_focus)) = IDLE /\
  new_effects in_plain_focus (exec clock_plain CTick in_plain_focus) =
    [tick
       {| state := FOCUS; remaining_seconds := 0; total_seconds := 1500;
          current_group_id := None; focus_minutes := 25; break_minutes := 5;
          session_start_ts := 1000; pause_start_ts := 0;
          total_paused_seconds := 0 |};
     create_session_row
       {| id := None; group_id := 0; start_ts := 1000; end_ts := 2500;
          planned_seconds := 1500; actual_seconds := 1500;
          status := "completed"; note := None; created_at := 2500;
          is_break := false |} 1;
     session_completed
       {| id := Some 1; group_id := 0; start_ts := 1000; end_ts := 2500;
          planned_seconds := 1500; actual_seconds := 1500;
          status := "completed"; note := None; created_at := 2500;
          is_break := false |};
     phase_changed FOCUS IDLE].
Proof.
  vm_compute. repeat split.
Qed.

(** C8. A focus started at 100 is paused at 110 and [start_break] is called
    at 120.  The specification asks for a pause mark of 0 outside Paused;
    the engine is in Break with [pause_start_ts = 110] and the remembered
    phase still Focus. *)
Theorem start_break_keeps_pause_mark :
  state (context break_over_pause) = BREAK /\
  pause_start_ts (context break_over_pause) = 110 /\
  state_before_pause break_over_pause = Some FOCUS /\
  ~ pause_mark_clear break_over_pause.
Proof.
  repeat split; try reflexivity.
  unfold pause_mark_clear. intros H.
  assert (E : pause_start_ts (context break_over_pause) = 0)
    by (apply H; vm_compute; discriminate).
  vm_compute in E. discriminate.
Qed.

(** C2. The break of 5 minutes started at 120 over the paused focus is
    stopped at 200, with [log_breaks] set.  The engine is not paused, and
    the specification asks for
    [now - session_start_ts - total_paused_seconds], 80 seconds of 300; the
    record has [actual_seconds = 0], computed from the pause mark 110 that
    [start_break] left behind. *)
Theorem stale_pause_mark_zeroes_actual_seconds :
  let w := break_over_pause in
  let c := context w in
  state c = BREAK /\
  Z.max 0
    (Z.min (clock_manual (clock_reads w) - session_start_ts c
            - total_paused_seconds c)
           (current_planned_seconds w)) = 80 /\
  persisted (new_effects w (exec clock_manual CStop w)) =
    [{| id := Some 1; group_id := 0; start_ts := 120; end_ts := 200;
        planned_seconds := 300; actual_seconds := 0;
        status := "interrupted"; note := None; created_at := 200;
        is_break := true |}].
Proof.
  vm_compute. repeat split.
Qed.

(** ** Runs and databases for the properties of the whole development *)


Lemma sample_db_fresh : ids_fresh sample_db.
Proof.
  unfold ids_fresh. cbn.
  repeat split; repeat constructor; cbn; try lia;
    intros H; repeat (destruct H as [H | H]; try lia); exact H.
Qed.

Lemma sample_db_plain_keys : plain_keys sample_db.
Proof. repeat constructor. Qed.

Lemma idle_is_reset_witness :
  let w := run seconds_clock [CStartFocus 25 5 (Some 1); CStop] init_world in
  state (context w) = IDLE /\
  context w = idle_context (context w) /\
  state_before_pause w = None /\
  current_session_start w = 0 /\
  current_planned_seconds w = 0 /\
  qt_timer_active w = false.
Proof.
  intros w. assert (H : state (context w) = IDLE) by reflexivity.
  split; [exact H |].
  exact (idle_is_reset seconds_clock [CStartFocus 25 5 (Some 1); CStop] H).
Defined.

Lemma resume_leaves_paused_witness :
  let w := run seconds_clock [CStartFocus 25 5 (Some 1); CPause] init_world in
  let w' := execState (resume seconds_clock) w in
  state (context w) = PAUSED /\
  state (context w') = FOCUS /\
  state_before_pause w' = None /\
  qt_timer_active w' = true.
Proof.
  intros w w'. assert (H : state (context w) = PAUSED) by reflexivity.
  split; [exact H |].
  destruct (resume_leaves_paused seconds_clock
              [CStartFocus 25 5 (Some 1); CPause] H)
    as (_ & _ & Hb & Ht & _).
  split; [reflexivity |]. split; [exact Hb | exact Ht].
Defined.

Lemma persisted_records_well_formed_witness :
  Forall record_ok
    (persisted
       (trace (run seconds_clock
                 [CStartFocus 25 5 (Some 1); CPause; CResume; CStop]
                 init_world))).
Proof.
  apply (persisted_records_well_formed seconds_clock seconds_clock_monotone
           [CStartFocus 25 5 (Some 1); CPause; CResume; CStop]).
  repeat constructor; cbn; lia.
Defined.

Lemma stop_in_focus_saves_interrupted_witness :
  state (context in_focus) = FOCUS /\
  context (execState (stop seconds_clock) in_focus)
  = idle_context (context in_focus) /\
  qt_timer_active (execState (stop seconds_clock) in_focus) = false.
Proof.
  assert (H : state (context in_focus) = FOCUS) by reflexivity.
  split; [exact H |].
  destruct (stop_in_focus_saves_interrupted seconds_clock
              [CStartFocus 25 5 (Some 1)] H) as (_ & Hc & Ht).
  split; [exact Hc | exact Ht].
Defined.

Lemma skip_break_logs_on_request_witness :
  let w := run seconds_clock [CStartBreak] init_world in
  let w' := execState (skip_break seconds_clock) w in
  state (context w) = BREAK /\
  log_breaks (settings w) = false /\
  context w' = idle_context (context w) /\
  new_effects w w'
  = [phase_changed BREAK IDLE; tick (idle_context (context w))].
Proof.
  intros w w'. assert (H : state (context w) = BREAK) by reflexivity.
  assert (L : log_breaks (settings w) = false) by reflexivity.
  split; [exact H |]. split; [exact L |].
  destruct (skip_break_logs_on_request seconds_clock w H)
    as (Hc & _ & _ & Hoff & _).
  split; [exact Hc | exact (Hoff L)].
Defined.

Lemma cleanup_leaves_idle_witness :
  let w' := execState (cleanup seconds_clock) in_focus in
  was_focus in_focus /\
  state (context w') = IDLE /\
  exists s : Session,
    persisted (new_effects in_focus w') = [s] /\
    status s = "interrupted"%string.
Proof.
  intros w'. assert (H : was_focus in_focus) by (left; reflexivity).
  split; [exact H |].
  destruct (cleanup_leaves_idle seconds_clock in_focus)
    as (Hs & _ & _ & _ & Hsave).
  split; [exact Hs |].
  destruct (Hsave H) as (s & Hp & _ & Hst & _).
  exists s. split; [exact Hp | exact Hst].
Defined.


Lemma start_break_enters_break_witness :
  let w' := execState (start_break seconds_clock) in_focus in
  state (context in_focus) = FOCUS /\
  state (context w') = BREAK /\
  total_seconds (context w') = 300 /\
  exists s : Session,
    persisted (new_effects in_focus w') = [with_id (Some 1) s] /\
    status s = "completed"%string.
Proof.
  intros w'. assert (H : state (context in_focus) = FOCUS) by reflexivity.
  split; [exact H |].
  destruct (start_break_enters_break seconds_clock in_focus)
    as (Hs & Ht & _ & _ & _ & _ & _ & _ & _ & _ & Hsave).
  split; [exact Hs |]. split; [exact Ht |].
  destruct (Hsave H) as (s & He & Hst & _).
  exists s. fold w' in He. rewrite He. split; [reflexivity | exact Hst].
Defined.


Lemma format_remaining_is_mmss_witness :
  0 <= remaining_seconds (showing 1500) < 6000 /\
  mmss_value (format_remaining (showing 1500)) = Some 1500.
Proof.
  assert (H : 0 <= remaining_seconds (showing 1500) < 6000) by (cbn; lia).
  split; [exact H |].
  exact (format_remaining_is_mmss (showing 1500) H).
Defined.

Lemma start_button_gives_valid_minutes_witness :
  focus_spin_range 40 /\ break_spin_range 8 /\
  (exists f b : Z,
     _get_current_timing false 40 8 (-1) = Some (f, b) /\
     1 <= f <= 180 /\ 1 <= b <= 60) /\
  execState (_on_start_clicked seconds_clock false 40 8 (-5) None) init_world
  = init_world.
Proof.
  assert (F : focus_spin_range 40) by (unfold focus_spin_range; lia).
  assert (B : break_spin_range 8) by (unfold break_spin_range; lia).
  split; [exact F |]. split; [exact B |]. split.
  - destruct (start_button_gives_valid_minutes seconds_clock false 40 8 (-1)
                None F B) as (Hok & _).
    destruct Hok as (f & b & Ht & Hf & Hb & _); [lia |].
    exists f, b. split; [exact Ht |]. split; [exact Hf | exact Hb].
  - destruct (start_button_gives_valid_minutes seconds_clock false 40 8 (-5)
                None F B) as (_ & Herr).
    apply Herr; [lia | reflexivity].
Defined.

Lemma pause_button_toggles_witness :
  let click := execState (_on_pause_clicked seconds_clock) in
  running (context in_focus) = true /\
  state (context (click in_focus)) = PAUSED /\
  state (context (click (click in_focus))) = FOCUS /\
  click init_world = init_world.
Proof.
  intros click.
  assert (H : running (context in_focus) = true) by reflexivity.
  split; [exact H |].
  destruct (pause_button_toggles seconds_clock in_focus) as (Hrun & _).
  destruct (pause_button_toggles seconds_clock init_world) as (_ & Hidle).
  destruct (Hrun H) as (_ & Hp & Hs & _).
  split; [exact Hp |]. split; [exact Hs |].
  apply Hidle. reflexivity.
Defined.

Lemma settings_round_trip_witness :
  plain_keys sample_db /\
  all_parsed (of_flags (settings_with false true true)) /\
  Storage.get_settings
    (Storage.save_settings (of_flags (settings_with false true true))
       sample_db)
  = of_flags (settings_with false true true).
Proof.
  assert (P : all_parsed (of_flags (settings_with false true true)))
    by (repeat split; exact I).
  split; [exact sample_db_plain_keys |]. split; [exact P |].
  destruct (settings_round_trip (of_flags (settings_with false true true))
              sample_db sample_db_plain_keys P) as (H & _).
  exact H.
Defined.

Lemma options_changed_keeps_the_rest_witness :
  plain_keys sample_db /\
  flags (Storage.get_settings (_on_options_changed false true sample_db))
  = settings_with false true false.
Proof.
  split; [exact sample_db_plain_keys |].
  destruct (options_changed_keeps_the_rest false true sample_db
              sample_db_plain_keys) as (H1 & H2 & H3 & H4 & H5 & H6).
  destruct (Storage.get_settings (_on_options_changed false true sample_db))
    as [a b c d e f].
  cbn in H1, H2, H3, H4, H5, H6. subst. reflexivity.
Defined.


Lemma get_group_minutes_at_least_one_witness :
  let db :=
    Storage.insert_group_row "Rest" 0 (-3) "#000000" 7 Database.empty in
  exists g : Group.t,
    Storage.get_group 1 db = Some g /\
    Group.default_focus_minutes g = 1 /\
    Group.default_break_minutes g = 1.
Proof.
  intros db.
  assert (H : Storage.get_group 1 db
              = Some (Group.make (Some 1) "Rest" 0 (-3) "#000000" 7))
    by reflexivity.
  exists (Group.make (Some 1) "Rest" 0 (-3) "#000000" 7).
  split; [exact H |].
  destruct (get_group_minutes_at_least_one 1 db _ H)
    as (_ & _ & _ & row & _ & _ & _ & _ & _).
  split; reflexivity.
Defined.

Lemma delete_group_takes_its_sessions_witness :
  let db' := snd (Storage.delete_group 1 sample_db) in
  ids_fresh sample_db /\
  fst (Storage.delete_group 1 sample_db) = true /\
  Storage.get_group 1 db' = None /\
  Storage._get_total_seconds_since 0 None db' = 1500.
Proof.
  intros db'.
  split; [exact sample_db_fresh |].
  destruct (delete_group_takes_its_sessions 1 sample_db sample_db_fresh)
    as (Ha & Hg & _ & _ & Ht & _).
  split; [apply Ha; discriminate |]. split; [exact Hg |].
  fold db' in Ht. rewrite Ht. reflexivity.
Defined.

Lemma created_group_reads_back_witness :
  let grp := Group.make None "Music" 40 0 "#112233" 6000 in
  ids_fresh sample_db /\
  Storage.name_taken (Group.name grp) (Database.groups sample_db) = false /\
  exists db',
    Storage.create_group grp sample_db = (Returned 5, db') /\
    Storage.get_group 5 db'
    = Some (Group.make (Some 5) "Music" 40 1 "#112233" 6000) /\
    Storage.create_group grp db' = (IntegrityError, db').
Proof.
  intros grp.
  assert (N : Storage.name_taken (Group.name grp) (Database.groups sample_db)
              = false) by reflexivity.
  split; [exact sample_db_fresh |]. split; [exact N |].
  destruct (created_group_reads_back grp sample_db sample_db_fresh N)
    as (i & db' & Hc & Hi & Hg & _ & Hd & _).
  exists db'. cbn in Hi. subst i.
  split; [exact Hc |]. split; [exact Hg | exact Hd].
Defined.

Lemma updated_group_reads_back_witness :
  let grp := Group.make (Some 2) "Job" 45 10 "#2196F3" 0 in
  ids_fresh sample_db /\
  Group.id grp = Some 2 /\
  exists db',
    Storage.update_group grp sample_db = (Returned true, db') /\
    Storage.get_group 2 db'
    = Some (Group.make (Some 2) "Job" 45 10 "#2196F3" 1000).
Proof.
  intros grp.
  assert (E : Group.id grp = Some 2) by reflexivity.
  split; [exact sample_db_fresh |]. split; [exact E |].
  pose proof (updated_group_reads_back grp 2 sample_db sample_db_fresh E)
    as H.
  destruct (Storage.update_group grp sample_db) as [[[|] |] db'] eqn:U;
    try discriminate U.
  destruct H as (old & Hold & Hnew & _).
  exists db'. split; [reflexivity |].
  rewrite Hnew. vm_compute in Hold. injection Hold as <-. reflexivity.
Defined.

Lemma init_database_fills_groups_once_witness :
  let db := Storage._init_database 1000 Database.empty in
  Database.groups Database.empty = [] /\
  map GroupRow.id (Database.groups db) = [1; 2; 3; 4] /\
  Storage._init_database 2000 db = db.
Proof.
  intros db.
  assert (E : Database.groups Database.empty = []) by reflexivity.
  split; [exact E |].
  destruct (init_database_fills_groups_once 1000 2000 Database.empty)
    as (_ & _ & Hfill & _ & _ & Hagain).
  destruct (Hfill E) as (_ & Hids & _).
  split; [exact Hids | exact Hagain].
Defined.

Lemma note_update_changes_only_the_note_witness :
  let db' := snd (Storage.update_session_note 2 "deep work" sample_db) in
  Storage.get_session 2 db'
  = Some (with_note (Some "deep work"%string)
            (with_id (Some 2) (sample_session 2 5000))) /\
  Storage.get_session 1 db' = Storage.get_session 1 sample_db.
Proof.
  intros db'.
  destruct (note_update_changes_only_the_note 2 "deep work" sample_db)
    as (_ & Hn & Ho & _).
  split.
  - fold db' in Hn. rewrite Hn. reflexivity.
  - apply Ho. lia.
Defined.

Lemma announced_sessions_are_stored_witness :
  let w :=
    run seconds_clock [CStartFocus 25 5 (Some 1); CStop] init_world in
  let s :=
    {| id := Some 1; group_id := 1; start_ts := 1000; end_ts := 1001;
       planned_seconds := 1500; actual_seconds := 1;
       status := "interrupted"; note := None; created_at := 1002;
       is_break := false |} in
  In (session_completed s) (trace w) /\
  exists db,
    stored (trace w) Database.empty = Some db /\
    Storage.get_session 1 db = Some s.
Proof.
  intros w s.
  assert (Hin : In (session_completed s) (trace w))
    by (vm_compute; tauto).
  split; [exact Hin |].
  destruct (announced_sessions_are_stored seconds_clock
              [CStartFocus 25 5 (Some 1); CStop])
    as (db & Hst & _ & _ & Hget).
  destruct (Hget s Hin) as (i & Hi & Hs).
  exists db. split; [exact Hst |].
  injection Hi as <-. exact Hs.
Defined.



Lemma timer_page_follows_engine_witness :
  let w :=
    run seconds_clock [CStartBreak; CPause] init_world in
  let p :=
    TimerPage.after (fun _ _ => "0"%string) (trace w) TimerPage.make in
  state (context w) = PAUSED /\
  TimerPage.time_label_text p = "05:00"%string /\
  TimerPage.pause_btn_text p = "Resume"%string /\
  TimerPage.skip_break_btn_visible p = true /\
  TimerPage.focus_spin_enabled p = false.
Proof.
  intros w p. split; [reflexivity |].
  destruct (timer_page_follows_engine seconds_clock (fun _ _ => "0"%string)
              [CStartBreak; CPause])
    as (_ & Ht & _ & _ & _ & _ & Hp & Hs & _ & _ & Hspin).
  split; [exact Ht |]. split; [exact Hp |]. split; [exact Hs |].
  destruct (Hspin eq_refl) as (Hf & _). exact Hf.
Defined.
